(** * Webpage Clipper: the IndexedDB storage adapter (src/utils/db.js)

    A shallow embedding of the adapter and of the part of the browser's
    IndexedDB engine it drives, followed by the properties of the five
    exported operations (init, addPage, getAllPages, deletePage,
    clearAllPages). *)

From Stdlib Require Import ZArith String SpecFloat Lia.
From stdpp Require Import base option list gmap strings sorting.

Set Warnings "-register-all".
Local Open Scope string_scope.
Local Open Scope list_scope.
Local Open Scope Z_scope.

(** ** JavaScript values *)

(** The values a page description can carry: primitives and plain objects.
    A number is an IEEE 754 double, given by sign, mantissa and exponent. *)
Inductive JsValue : Type :=
  | JUndefined
  | JNull
  | JBool (b : bool)
  | JNumber (x : spec_float)
  | JBigInt (n : Z)
  | JString (s : string)
  | JObject (props : gmap string JsValue).

Inductive JsError : Type :=
  | Error (message : string)
  | TypeError (message : string)
  | DOMException (name : string).

(** ToBoolean: undefined, null, false, +0, -0, NaN, 0n and the empty string
    are falsy; every other value, objects included, is truthy. *)
Definition truthy (v : JsValue) : bool :=
  match v with
  | JUndefined | JNull => false
  | JBool b => b
  | JNumber (S754_zero _) | JNumber S754_nan => false
  | JNumber _ => true
  | JBigInt n => negb (Z.eqb n 0)
  | JString s => negb (String.eqb s "")
  | JObject _ => true
  end.

(** [a || b] *)
Definition js_or (a b : JsValue) : JsValue := if truthy a then a else b.

(** [Number.isFinite(v)]: no coercion, so only a number can pass. *)
Definition Number_isFinite (v : JsValue) : bool :=
  match v with
  | JNumber (S754_zero _) | JNumber (S754_finite _ _ _) => true
  | _ => false
  end.

(** The double that holds the integer [k] (exact for |k| <= 2^53). *)
Definition number_of_Z (k : Z) : spec_float := binary_normalize 53 1024 k 0 false.

(** The integer a double is equal to, when it is equal to one. *)
Definition integer_of (x : spec_float) : option Z :=
  match x with
  | S754_zero _ => Some 0
  | S754_finite s m e =>
      let v := if s then Z.neg m else Z.pos m in
      if 0 <=? e then Some (v * 2 ^ e)
      else if Z.pos m mod 2 ^ (- e) =? 0 then Some (v / 2 ^ (- e))
      else None
  | S754_infinity _ | S754_nan => None
  end.

(** ** Results and the console *)

Inductive Outcome (A : Type) : Type :=
  | Resolved (a : A)
  | Rejected (e : JsError).
Arguments Resolved {A} a.
Arguments Rejected {A} e.

Inductive LogArg : Type :=
  | LText (s : string)
  | LValue (v : JsValue)
  | LError (e : JsError).

Inductive LogLevel : Type := LevelLog | LevelError.

Record LogEntry : Type := { log_level : LogLevel; log_args : list LogArg }.

(** ** The engine's persistent state *)

Record IDBIndex : Type :=
  { index_name : string; index_keyPath : string; index_unique : bool }.

(** An object store with in-line keys. The records are held in key order,
    which is the order [getAll] reports them in. The keys of this model are
    the integers a key generator hands out. *)
Record ObjectStore : Type :=
  { store_keyPath : string;
    store_autoIncrement : bool;
    store_indexes : list IDBIndex;
    store_records : list (Z * gmap string JsValue);
    store_keygen : Z }.

Record Database : Type :=
  { idb_version : Z; idb_stores : gmap string ObjectStore }.

(** The handle [indexedDB.open] resolves to. *)
Record IDBDatabase : Type := { conn_name : string }.

Inductive IDBTransactionMode : Type := readonly | readwrite | versionchange.

Record IDBTransaction : Type :=
  { tx_db : string; tx_scope : list string; tx_mode : IDBTransactionMode }.

Record IDBObjectStore : Type :=
  { os_db : string; os_name : string; os_mode : IDBTransactionMode }.

Record IDBVersionChangeEvent : Type :=
  { event_result : IDBDatabase; event_oldVersion : Z }.

(** ** The world: the module variable [db], the engine and the console *)

Record World : Type :=
  { db : option IDBDatabase;
    indexedDB : gmap string Database;
    console : list LogEntry }.

Definition set_db (c : option IDBDatabase) (w : World) : World :=
  {| db := c; indexedDB := indexedDB w; console := console w |}.

Definition set_indexedDB (e : gmap string Database) (w : World) : World :=
  {| db := db w; indexedDB := e; console := console w |}.

Definition push_console (l : LogEntry) (w : World) : World :=
  {| db := db w; indexedDB := indexedDB w; console := console w ++ [l] |}.

(** ** The monad of the adapter: state and exceptions *)

Definition Js (A : Type) : Type := World -> Outcome A * World.

#[global] Instance Js_ret : MRet Js := fun A a w => (Resolved a, w).

#[global] Instance Js_bind : MBind Js := fun A B f m w =>
  match m w with
  | (Resolved a, w') => f a w'
  | (Rejected e, w') => (Rejected e, w')
  end.

Definition throw {A : Type} (e : JsError) : Js A := fun w => (Rejected e, w).

Definition try_catch {A : Type} (body : Js A) (handler : JsError -> Js A) : Js A :=
  fun w =>
    match body w with
    | (Resolved a, w') => (Resolved a, w')
    | (Rejected e, w') => handler e w'
    end.

Definition modify_world (f : World -> World) : Js unit := fun w => (Resolved tt, f w).

Definition console_log (args : list LogArg) : Js unit :=
  modify_world (push_console {| log_level := LevelLog; log_args := args |}).

Definition console_error (msg : string) (e : JsError) : Js unit :=
  modify_world (push_console {| log_level := LevelError; log_args := [LText msg; LError e] |}).

(** [o.name]: reading a property of undefined or null throws; a primitive
    has none of the properties read here. *)
Definition get_property (o : JsValue) (name : string) : Js JsValue :=
  match o with
  | JUndefined | JNull => throw (TypeError "Cannot read properties of undefined or null")
  | JObject props => mret (default JUndefined (props !! name))
  | _ => mret JUndefined
  end.

(** ** The engine's operations (IndexedDB) *)

(** The engine is the browser's. It is described here as the IndexedDB
    standard and section 6 of the specification describe it, for the calls
    the adapter makes: open with an upgrade, transactions on one store, and
    the add, getAll, delete and clear requests. Each request takes the error
    the engine answers it with, when it answers with one. *)

Definition new_database : Database := {| idb_version := 0; idb_stores := ∅ |}.

Definition set_version (v : Z) (d : Database) : Database :=
  {| idb_version := v; idb_stores := idb_stores d |}.

Definition set_stores (m : gmap string ObjectStore) (d : Database) : Database :=
  {| idb_version := idb_version d; idb_stores := m |}.

Definition set_records (l : list (Z * gmap string JsValue)) (g : Z) (s : ObjectStore)
  : ObjectStore :=
  {| store_keyPath := store_keyPath s;
     store_autoIncrement := store_autoIncrement s;
     store_indexes := store_indexes s;
     store_records := l;
     store_keygen := g |}.

Definition add_index (i : IDBIndex) (s : ObjectStore) : ObjectStore :=
  {| store_keyPath := store_keyPath s;
     store_autoIncrement := store_autoIncrement s;
     store_indexes := store_indexes s ++ [i];
     store_records := store_records s;
     store_keygen := store_keygen s |}.

Definition lookup_store (dbname name : string) (w : World) : option ObjectStore :=
  d ← indexedDB w !! dbname; idb_stores d !! name.

Definition update_store (dbname name : string) (s : ObjectStore) (w : World) : World :=
  match indexedDB w !! dbname with
  | Some d =>
      set_indexedDB (<[dbname := set_stores (<[name := s]> (idb_stores d)) d]> (indexedDB w)) w
  | None => w
  end.

(** [db.createObjectStore(name, { keyPath, autoIncrement })], inside an
    upgrade: a new, empty store whose key generator starts at 1. *)
Definition createObjectStore (c : IDBDatabase) (name keyPath : string) (autoIncrement : bool)
  : Js IDBObjectStore :=
  fun w =>
    match indexedDB w !! conn_name c with
    | None => (Rejected (DOMException "InvalidStateError"), w)
    | Some d =>
        match idb_stores d !! name with
        | Some _ => (Rejected (DOMException "ConstraintError"), w)
        | None =>
            (Resolved {| os_db := conn_name c; os_name := name; os_mode := versionchange |},
             update_store (conn_name c) name
               {| store_keyPath := keyPath;
                  store_autoIncrement := autoIncrement;
                  store_indexes := [];
                  store_records := [];
                  store_keygen := 1 |} w)
        end
    end.

(** [store.createIndex(name, keyPath, { unique })] *)
Definition createIndex (h : IDBObjectStore) (name keyPath : string) (unique : bool)
  : Js unit :=
  fun w =>
    match os_mode h, lookup_store (os_db h) (os_name h) w with
    | versionchange, Some s =>
        if existsb (fun i => String.eqb (index_name i) name) (store_indexes s)
        then (Rejected (DOMException "ConstraintError"), w)
        else (Resolved tt,
              update_store (os_db h) (os_name h)
                (add_index {| index_name := name; index_keyPath := keyPath;
                              index_unique := unique |} s) w)
    | _, _ => (Rejected (DOMException "InvalidStateError"), w)
    end.

(** [indexedDB.open(name, version)] and the wait for its success or error
    event. [fault] is the error the engine reports for the request, if it
    reports one. When the stored version is behind, the upgrade handler runs
    inside a version-change transaction; an exception in it aborts the
    transaction, which undoes its changes to the database. *)
Definition indexedDB_open (fault : option JsError) (name : string) (version : Z)
    (onupgradeneeded : IDBVersionChangeEvent -> Js unit) : Js IDBDatabase :=
  fun w =>
    match fault with
    | Some e => (Rejected e, w)
    | None =>
        let d := default new_database (indexedDB w !! name) in
        let conn := {| conn_name := name |} in
        if version <? idb_version d then (Rejected (DOMException "VersionError"), w)
        else if idb_version d <? version then
          let w1 := set_indexedDB (<[name := set_version version d]> (indexedDB w)) w in
          match onupgradeneeded {| event_result := conn; event_oldVersion := idb_version d |} w1 with
          | (Resolved _, w2) => (Resolved conn, w2)
          | (Rejected _, w2) =>
              (Rejected (DOMException "AbortError"), set_indexedDB (indexedDB w) w2)
          end
        else (Resolved conn, w)
    end.

(** [db.transaction(storeNames, mode)] *)
Definition transaction (c : IDBDatabase) (storeNames : list string)
    (mode : IDBTransactionMode) : Js IDBTransaction :=
  fun w =>
    match indexedDB w !! conn_name c with
    | None => (Rejected (DOMException "InvalidStateError"), w)
    | Some d =>
        if forallb (fun n => bool_decide (is_Some (idb_stores d !! n))) storeNames
        then
          match storeNames with
          | [] => (Rejected (DOMException "InvalidAccessError"), w)
          | _ => (Resolved {| tx_db := conn_name c; tx_scope := storeNames; tx_mode := mode |}, w)
          end
        else (Rejected (DOMException "NotFoundError"), w)
    end.

(** [transaction.objectStore(name)] *)
Definition objectStore (t : IDBTransaction) (name : string) : Js IDBObjectStore :=
  if existsb (String.eqb name) (tx_scope t)
  then mret {| os_db := tx_db t; os_name := name; os_mode := tx_mode t |}
  else throw (DOMException "NotFoundError").

(** Keys: a number other than NaN, or a string. *)
Inductive IDBKey : Type :=
  | KeyNumber (x : spec_float)
  | KeyString (s : string).

Definition convert_value_to_key (v : JsValue) : option IDBKey :=
  match v with
  | JNumber S754_nan => None
  | JNumber x => Some (KeyNumber x)
  | JString s => Some (KeyString s)
  | _ => None
  end.

(** Whether the record key [k] is the key [key]. *)
Definition key_matches (key : IDBKey) (k : Z) : bool :=
  match key with
  | KeyNumber x => match integer_of x with Some k' => k =? k' | None => false end
  | KeyString _ => false
  end.

Fixpoint insert_record (k : Z) (v : gmap string JsValue) (l : list (Z * gmap string JsValue))
  : list (Z * gmap string JsValue) :=
  match l with
  | [] => [(k, v)]
  | r :: l' => if k <? r.1 then (k, v) :: l else r :: insert_record k v l'
  end.

Definition has_key (k : Z) (l : list (Z * gmap string JsValue)) : bool :=
  existsb (fun r => r.1 =? k) l.

Definition MAX_KEY : Z := 2 ^ 53.

(** [store.add(value)] and the wait for the request. With in-line keys the
    key is read from the value at the key path; when the value has none and
    the store has a key generator, the generator's current number becomes
    the key, is written into the stored copy at the key path, and the
    generator moves on. A key in the value that is no integer is outside
    the keys of this model and is refused like an invalid one. *)
Definition IDBObjectStore_add (fault : option JsError) (h : IDBObjectStore)
    (value : gmap string JsValue) : Js Z :=
  fun w =>
    match os_mode h, lookup_store (os_db h) (os_name h) w with
    | readonly, _ => (Rejected (DOMException "ReadOnlyError"), w)
    | _, None => (Rejected (DOMException "InvalidStateError"), w)
    | _, Some s =>
        match value !! store_keyPath s with
        | Some v =>
            match convert_value_to_key v with
            | Some (KeyNumber x) =>
                match integer_of x, fault with
                | None, _ => (Rejected (DOMException "DataError"), w)
                | Some _, Some e => (Rejected e, w)
                | Some k, None =>
                    if has_key k (store_records s)
                    then (Rejected (DOMException "ConstraintError"), w)
                    else (Resolved k,
                          update_store (os_db h) (os_name h)
                            (set_records (insert_record k value (store_records s))
                               (if store_autoIncrement s && (store_keygen s <=? k)
                                then Z.min (k + 1) (MAX_KEY + 1) else store_keygen s) s) w)
                end
            | _ => (Rejected (DOMException "DataError"), w)
            end
        | None =>
            if store_autoIncrement s then
              match fault with
              | Some e => (Rejected e, w)
              | None =>
                  let k := store_keygen s in
                  if MAX_KEY <? k then (Rejected (DOMException "ConstraintError"), w)
                  else (Resolved k,
                        update_store (os_db h) (os_name h)
                          (set_records
                             (insert_record k
                                (<[store_keyPath s := JNumber (number_of_Z k)]> value)
                                (store_records s))
                             (k + 1) s) w)
              end
            else (Rejected (DOMException "DataError"), w)
        end
    end.

(** [store.getAll()]: every record's value, in key order. *)
Definition IDBObjectStore_getAll (fault : option JsError) (h : IDBObjectStore)
  : Js (list (gmap string JsValue)) :=
  fun w =>
    match lookup_store (os_db h) (os_name h) w, fault with
    | None, _ => (Rejected (DOMException "InvalidStateError"), w)
    | Some _, Some e => (Rejected e, w)
    | Some s, None => (Resolved (map snd (store_records s)), w)
    end.

(** [store.delete(id)]: an argument that is no key is refused; the records
    under the key, if any, go. The key generator is left as it is. *)
Definition IDBObjectStore_delete (fault : option JsError) (h : IDBObjectStore)
    (id : JsValue) : Js unit :=
  fun w =>
    match os_mode h, lookup_store (os_db h) (os_name h) w with
    | readonly, _ => (Rejected (DOMException "ReadOnlyError"), w)
    | _, None => (Rejected (DOMException "InvalidStateError"), w)
    | _, Some s =>
        match convert_value_to_key id, fault with
        | None, _ => (Rejected (DOMException "DataError"), w)
        | Some _, Some e => (Rejected e, w)
        | Some key, None =>
            (Resolved tt,
             update_store (os_db h) (os_name h)
               (set_records
                  (List.filter (fun r => negb (key_matches key r.1)) (store_records s))
                  (store_keygen s) s) w)
        end
    end.

(** [store.clear()]: every record goes; the key generator is left as it is. *)
Definition IDBObjectStore_clear (fault : option JsError) (h : IDBObjectStore) : Js unit :=
  fun w =>
    match os_mode h, lookup_store (os_db h) (os_name h) w with
    | readonly, _ => (Rejected (DOMException "ReadOnlyError"), w)
    | _, None => (Rejected (DOMException "InvalidStateError"), w)
    | _, Some s =>
        match fault with
        | Some e => (Rejected e, w)
        | None =>
            (Resolved tt,
             update_store (os_db h) (os_name h) (set_records [] (store_keygen s) s) w)
        end
    end.

(** ** The adapter (src/utils/db.js) *)

Definition DB_NAME : string := "WebpageClipperDB".
Definition DB_VERSION : Z := 2.
Definition STORE_NAME : string := "clippedPages".

Definition onupgradeneeded (event : IDBVersionChangeEvent) : Js unit :=
  let db := event_result event in
  let oldVersion := event_oldVersion event in
  (if oldVersion <? 1 then
     store ← createObjectStore db STORE_NAME "id" true;
     createIndex store "url" "url" false;;
     createIndex store "timestamp" "timestamp" false;;
     console_log [LText "Database schema created"]
   else mret tt);;
  (if oldVersion <? 2 then
     console_log
       [LText "Migrated to schema version 2: added wordCount, readingTime, and favicon support"]
   else mret tt).

(** [fault] is what the engine answers the open request with, when it is an
    error. *)
Definition initDB (fault : option JsError) : Js unit :=
  try_catch
    (conn ← indexedDB_open fault DB_NAME DB_VERSION onupgradeneeded;
     modify_world (set_db (Some conn));;
     console_log [LText "Database initialized successfully"])
    (fun error =>
       console_error "Database initialization failed:" error;;
       throw error).

(** [if (!db) throw new Error('Database not initialized')] *)
Definition require_db : Js IDBDatabase :=
  fun w =>
    match db w with
    | Some c => (Resolved c, w)
    | None => (Rejected (Error "Database not initialized"), w)
    end.

(** The object literal of [addClippedPage]. [now] is what
    [new Date().toISOString()] gives at the call. *)
Definition page_record (title url content timestamp favicon wordCount readingTime : JsValue)
    (now : string) : gmap string JsValue :=
  list_to_map
    [("title", js_or title (JString "Untitled"));
     ("url", js_or url (JString ""));
     ("content", js_or content (JString ""));
     ("timestamp", js_or timestamp (JString now));
     ("favicon", js_or favicon (JString ""));
     ("wordCount", if Number_isFinite wordCount then wordCount else JNumber (number_of_Z 0));
     ("readingTime", if Number_isFinite readingTime then readingTime else JNumber (number_of_Z 1))].

Definition addClippedPage (pageData : JsValue) (now : string) (fault : option JsError)
  : Js Z :=
  db ← require_db;
  title ← get_property pageData "title";
  url ← get_property pageData "url";
  content ← get_property pageData "content";
  timestamp ← get_property pageData "timestamp";
  favicon ← get_property pageData "favicon";
  wordCount ← get_property pageData "wordCount";
  readingTime ← get_property pageData "readingTime";
  let data := page_record title url content timestamp favicon wordCount readingTime now in
  try_catch
    (transaction ← transaction db [STORE_NAME] readwrite;
     store ← objectStore transaction STORE_NAME;
     result ← IDBObjectStore_add fault store data;
     console_log [LText "Page clipped successfully"];;
     mret result)
    (fun error =>
       console_error "Failed to clip page:" error;;
       throw error).

Definition getAllClippedPages (fault : option JsError) : Js (list (gmap string JsValue)) :=
  db ← require_db;
  try_catch
    (transaction ← transaction db [STORE_NAME] readonly;
     store ← objectStore transaction STORE_NAME;
     result ← IDBObjectStore_getAll fault store;
     mret result)
    (fun error =>
       console_error "Failed to get clipped pages:" error;;
       throw error).

Definition deleteClippedPage (id : JsValue) (fault : option JsError) : Js unit :=
  db ← require_db;
  try_catch
    (transaction ← transaction db [STORE_NAME] readwrite;
     store ← objectStore transaction STORE_NAME;
     IDBObjectStore_delete fault store id;;
     console_log [LText "Page with ID "; LValue id; LText " deleted successfully"])
    (fun error =>
       console_error "Failed to delete page:" error;;
       throw error).

Definition clearAllClippedPages (fault : option JsError) : Js unit :=
  db ← require_db;
  try_catch
    (transaction ← transaction db [STORE_NAME] readwrite;
     store ← objectStore transaction STORE_NAME;
     IDBObjectStore_clear fault store;;
     console_log [LText "All pages cleared successfully"])
    (fun error =>
       console_error "Failed to clear pages:" error;;
       throw error).

(** The world of a fresh browser profile at page load. *)
Definition pristine : World := {| db := None; indexedDB := ∅; console := [] |}.

(** [{ ... }]: an object literal. *)
Definition obj (l : list (string * JsValue)) : JsValue := JObject (list_to_map l).

(** The value of [o.name] when [o] is neither undefined nor null. *)
Definition prop (o : JsValue) (name : string) : JsValue :=
  match o with
  | JObject props => default JUndefined (props !! name)
  | _ => JUndefined
  end.

Definition nullish (v : JsValue) : bool :=
  match v with JUndefined | JNull => true | _ => false end.

(** The value of [data] in [addClippedPage]. *)
Definition normalized (pageData : JsValue) (now : string) : gmap string JsValue :=
  page_record (prop pageData "title") (prop pageData "url") (prop pageData "content")
    (prop pageData "timestamp") (prop pageData "favicon") (prop pageData "wordCount")
    (prop pageData "readingTime") now.

(** The record the engine keeps for [data] under the key [k]. *)
Definition stored_record (pageData : JsValue) (now : string) (k : Z) : gmap string JsValue :=
  <["id" := JNumber (number_of_Z k)]> (normalized pageData now).

(** The store the adapter works on, through the connection it holds. *)
Definition current_store (w : World) : option ObjectStore :=
  c ← db w; lookup_store (conn_name c) STORE_NAME w.

(** The adapter holds a connection, and the store behind it has the schema
    [onupgradeneeded] creates. *)
Definition ready (w : World) (s : ObjectStore) : Prop :=
  current_store w = Some s /\ store_keyPath s = "id" /\ store_autoIncrement s = true.

(** ** Log lines, call sequences, the invariant, the specification's table and sample worlds *)

Definition log_entry (args : list LogArg) : LogEntry :=
  {| log_level := LevelLog; log_args := args |}.

Definition error_entry (msg : string) (e : JsError) : LogEntry :=
  {| log_level := LevelError; log_args := [LText msg; LError e] |}.

(** What [db.transaction] throws when the store is not there. *)
Definition transaction_error (c : IDBDatabase) (w : World) : JsError :=
  match indexedDB w !! conn_name c with
  | None => DOMException "InvalidStateError"
  | Some _ => DOMException "NotFoundError"
  end.

(** The store [onupgradeneeded] creates. *)
Definition clippedPages_schema : ObjectStore :=
  {| store_keyPath := "id";
     store_autoIncrement := true;
     store_indexes :=
       [{| index_name := "url"; index_keyPath := "url"; index_unique := false |};
        {| index_name := "timestamp"; index_keyPath := "timestamp"; index_unique := false |}];
     store_records := [];
     store_keygen := 1 |}.

Definition stored_database (w : World) : Database :=
  default new_database (indexedDB w !! DB_NAME).

Definition log_created : LogEntry := log_entry [LText "Database schema created"].
Definition log_migrated : LogEntry :=
  log_entry
    [LText "Migrated to schema version 2: added wordCount, readingTime, and favicon support"].
Definition log_initialized : LogEntry := log_entry [LText "Database initialized successfully"].

Definition connection : IDBDatabase := {| conn_name := DB_NAME |}.

(** The calls a client of [window.WebpageClipperDB] can make, each with what
    the environment contributes to it, and the load of the script, which
    starts with [db = null]. *)
Inductive Call : Type :=
  | CallInit (fault : option JsError)
  | CallAddPage (pageData : JsValue) (now : string) (fault : option JsError)
  | CallGetAllPages (fault : option JsError)
  | CallDeletePage (id : JsValue) (fault : option JsError)
  | CallClearAllPages (fault : option JsError)
  | ScriptLoad.

(** The world after a call, and the id the call returned when it was an
    [addPage] that resolved. *)
Definition exec (call : Call) (w : World) : World * option Z :=
  match call with
  | CallInit f => ((initDB f w).2, None)
  | CallAddPage p now f =>
      match addClippedPage p now f w with
      | (Resolved k, w') => (w', Some k)
      | (Rejected _, w') => (w', None)
      end
  | CallGetAllPages f => ((getAllClippedPages f w).2, None)
  | CallDeletePage id f => ((deleteClippedPage id f w).2, None)
  | CallClearAllPages f => ((clearAllClippedPages f w).2, None)
  | ScriptLoad => (set_db None w, None)
  end.

(** The world after a sequence of calls, and the ids handed out on the way,
    oldest first. *)
Fixpoint run (calls : list Call) (w : World) : World * list Z :=
  match calls with
  | [] => (w, [])
  | call :: calls' =>
      let (w1, r) := exec call w in
      let (w2, ids) := run calls' w1 in
      (w2, match r with Some k => k :: ids | None => ids end)
  end.

Definition store_inv (s : ObjectStore) : Prop :=
  store_keyPath s = "id" /\
  store_autoIncrement s = true /\
  store_indexes s = store_indexes clippedPages_schema /\
  Forall (fun r => r.1 < store_keygen s) (store_records s).

Definition adapter_inv (w : World) : Prop :=
  (forall c, db w = Some c -> c = connection) /\
  (forall s, lookup_store DB_NAME STORE_NAME w = Some s -> store_inv s).

(** The next key of the store's generator. *)
Definition keygen_of (w : World) : Z :=
  match lookup_store DB_NAME STORE_NAME w with
  | Some s => store_keygen s
  | None => 1
  end.

Definition step_ok (w w' : World) (r : option Z) : Prop :=
  adapter_inv w' /\
  keygen_of w <= keygen_of w' /\
  (forall k, r = Some k -> k = keygen_of w /\ keygen_of w' = k + 1).

(** The error of [throw new Error('Database not initialized')]. *)
Definition NotInitializedError : JsError := Error "Database not initialized".

(** A world with pages in the store: the profile after [init] and three
    [addPage] calls. *)
Definition sample_calls : list Call :=
  [CallInit None;
   CallAddPage (obj [("title", JString "A"); ("url", JString "http://x");
                     ("content", JString "hi"); ("wordCount", JNumber (number_of_Z 2));
                     ("readingTime", JNumber (number_of_Z 1))])
     "2024-05-01T10:00:00.000Z" None;
   CallAddPage (obj []) "2024-05-01T10:00:01.000Z" None;
   CallAddPage (obj [("title", JString "B"); ("extra", JBool true)])
     "2024-05-01T10:00:02.000Z" None].

Definition sample_world : World := (run sample_calls pristine).1.

(** The same profile when the script has just been loaded again. *)
Definition sample_world_unset : World := set_db None sample_world.

Definition sample_store : ObjectStore :=
  default clippedPages_schema (current_store sample_world).

(** A profile left by a release that had schema version 1. *)
Definition legacy_world : World :=
  {| db := None;
     indexedDB :=
       {[DB_NAME :=
           {| idb_version := 1;
              idb_stores :=
                {[STORE_NAME :=
                    set_records
                      [(1, list_to_map [("id", JNumber (number_of_Z 1));
                                        ("title", JString "Old page");
                                        ("url", JString "http://old");
                                        ("content", JString "text");
                                        ("timestamp", JString "2023-01-01T00:00:00.000Z")])]
                      2 clippedPages_schema]} |}]};
     console := [] |}.

(** The normalization of section 3 of the specification, read as written:
    a field that is absent takes the default of the table, and a word count
    or reading time that is not a finite number takes its default too. *)
Definition spec_field (pageData : JsValue) (name : string) (dflt : JsValue) : JsValue :=
  match pageData with
  | JObject props =>
      match props !! name with
      | None | Some JUndefined => dflt
      | Some v => v
      end
  | _ => dflt
  end.

Definition spec_count (pageData : JsValue) (name : string) (dflt : JsValue) : JsValue :=
  if Number_isFinite (spec_field pageData name dflt)
  then spec_field pageData name dflt else dflt.

Definition spec_normalize (pageData : JsValue) (now : string) : gmap string JsValue :=
  list_to_map
    [("title", spec_field pageData "title" (JString "Untitled"));
     ("url", spec_field pageData "url" (JString ""));
     ("content", spec_field pageData "content" (JString ""));
     ("timestamp", spec_field pageData "timestamp" (JString now));
     ("favicon", spec_field pageData "favicon" (JString ""));
     ("wordCount", spec_count pageData "wordCount" (JNumber (number_of_Z 0)));
     ("readingTime", spec_count pageData "readingTime" (JNumber (number_of_Z 1)))].

(** The declared types of section 3: text, and integer >= 0. *)
Definition is_text (v : JsValue) : bool :=
  match v with JString _ => true | _ => false end.

Definition is_count (v : JsValue) : bool :=
  match v with
  | JNumber x => match integer_of x with Some n => 0 <=? n | None => false end
  | _ => false
  end.

(** A page input whose fields, where given, have the declared types. *)
Definition spec_valid_page_input (pageData : JsValue) : bool :=
  match pageData with
  | JObject props =>
      forallb (fun name => from_option is_text true (props !! name))
        ["title"; "url"; "content"; "timestamp"; "favicon"]
      && forallb (fun name => from_option is_count true (props !! name))
           ["wordCount"; "readingTime"]
  | _ => false
  end.

(** The world after a first [init] in a fresh profile. *)
Definition ready_world : World := (initDB None pristine).2.

Definition empty_title_page : JsValue := obj [("title", JString "")].

Definition sample_page : JsValue :=
  obj [("title", JString ""); ("url", JString "http://y"); ("wordCount", JNumber S754_nan)].

Definition odd_counts_page : JsValue :=
  obj [("wordCount", JNumber (number_of_Z (-5)));
       ("readingTime", JNumber (S754_finite false 5629499534213120 (-51)))].

(** The record of the defaults table under the key [k]. *)
Definition default_record (now : string) (k : Z) : gmap string JsValue :=
  list_to_map
    [("id", JNumber (number_of_Z k));
     ("title", JString "Untitled");
     ("url", JString "");
     ("content", JString "");
     ("timestamp", JString now);
     ("favicon", JString "");
     ("wordCount", JNumber (S754_zero false));
     ("readingTime", JNumber (S754_finite false 4503599627370496 (-52)))].

(** The falsy values. *)
Definition falsy_values : list JsValue :=
  [JUndefined; JNull; JBool false; JNumber (S754_zero false); JNumber (S754_zero true);
   JNumber S754_nan; JBigInt 0; JString ""].

Definition falsy_text_page : JsValue :=
  obj [("title", JNumber (number_of_Z 0)); ("url", JNull); ("content", JBool false);
       ("timestamp", JString ""); ("favicon", JNumber S754_nan)].

Definition record_fields : list string :=
  ["title"; "url"; "content"; "timestamp"; "favicon"; "wordCount"; "readingTime"].

Definition cluttered_page : JsValue :=
  obj [("title", JString "B"); ("id", JNumber (number_of_Z 77)); ("extra", JBool true);
       ("tags", obj [("0", JString "news")])].

(** ** The worlds a browser profile goes through *)

(** The integer a stored record carries as its id. *)
Definition record_id (r : gmap string JsValue) : option Z :=
  match r !! "id" with
  | Some (JNumber x) => integer_of x
  | _ => None
  end.

(** A record as [addClippedPage] and the key generator make it. *)
Definition record_ok (kr : Z * gmap string JsValue) : Prop :=
  1 <= kr.1 /\
  dom kr.2 = list_to_set ("id" :: record_fields) /\
  kr.2 !! "id" = Some (JNumber (number_of_Z kr.1)).

Definition store_shape (s : ObjectStore) : Prop :=
  1 <= store_keygen s <= MAX_KEY + 1 /\
  StronglySorted Z.lt (map fst (store_records s)) /\
  Forall record_ok (store_records s).

(** What holds of every world that calls of the adapter lead to from a
    fresh profile: the database, once there, is at the adapter's version
    and has the store, and a connection is held only when the database is
    there. *)
Definition profile_inv (w : World) : Prop :=
  adapter_inv w /\
  (forall d, indexedDB w !! DB_NAME = Some d ->
     idb_version d = DB_VERSION /\
     exists s, idb_stores d !! STORE_NAME = Some s /\ store_shape s) /\
  (forall c, db w = Some c -> is_Some (indexedDB w !! DB_NAME)).

(** The line [console.error(msg, error)] of each call's [catch]. *)
Definition catch_message (call : Call) : string :=
  match call with
  | CallInit _ => "Database initialization failed:"
  | CallAddPage _ _ _ => "Failed to clip page:"
  | CallGetAllPages _ => "Failed to get clipped pages:"
  | CallDeletePage _ _ => "Failed to delete page:"
  | CallClearAllPages _ => "Failed to clear pages:"
  | ScriptLoad => ""
  end.

(** A call with its outcome, the value set aside. *)
Definition outcome_of (call : Call) (w : World) : option JsError * World :=
  match call with
  | CallInit f =>
      match initDB f w with (Resolved _, w') => (None, w') | (Rejected e, w') => (Some e, w') end
  | CallAddPage p now f =>
      match addClippedPage p now f w with
      | (Resolved _, w') => (None, w')
      | (Rejected e, w') => (Some e, w')
      end
  | CallGetAllPages f =>
      match getAllClippedPages f w with
      | (Resolved _, w') => (None, w')
      | (Rejected e, w') => (Some e, w')
      end
  | CallDeletePage id f =>
      match deleteClippedPage id f w with
      | (Resolved _, w') => (None, w')
      | (Rejected e, w') => (Some e, w')
      end
  | CallClearAllPages f =>
      match clearAllClippedPages f w with
      | (Resolved _, w') => (None, w')
      | (Rejected e, w') => (Some e, w')
      end
  | ScriptLoad => (None, set_db None w)
  end.

(** * Properties *)

(** ** Integers as doubles *)

(** Up to 2^53 the double of an integer is read back as that integer, so
    the id an add returns finds its record again. *)
Lemma digits2_pos_lower m : 2 ^ (Z.pos (digits2_pos m) - 1) <= Z.pos m.
Proof.
  induction m as [p IH|p IH|]; simpl; [| |done].
  - rewrite Pos2Z.inj_succ. replace (Z.succ (Z.pos (digits2_pos p)) - 1) with (Z.succ (Z.pos (digits2_pos p) - 1)) by lia.
    rewrite Z.pow_succ_r by lia. lia.
  - rewrite Pos2Z.inj_succ. replace (Z.succ (Z.pos (digits2_pos p)) - 1) with (Z.succ (Z.pos (digits2_pos p) - 1)) by lia.
    rewrite Z.pow_succ_r by lia. lia.
Qed.

Lemma digits2_pos_shift m d : digits2_pos (Pos.iter xO m d) = (digits2_pos m + d)%positive.
Proof.
  induction d as [|d IH] using Pos.peano_ind.
  - simpl. lia.
  - rewrite Pos.iter_succ. simpl. rewrite IH. lia.
Qed.

Lemma iter_xO_value m d : Z.pos (Pos.iter xO m d) = Z.pos m * 2 ^ Z.pos d.
Proof.
  induction d as [|d IH] using Pos.peano_ind.
  - simpl. lia.
  - rewrite Pos.iter_succ, Pos2Z.inj_succ, Z.pow_succ_r by lia.
    rewrite Pos2Z.inj_xO, IH. lia.
Qed.

Lemma binary_round_aux_exact mz ez :
  digits2_pos mz = 53%positive -> -1074 <= ez <= 971 ->
  binary_round_aux 53 1024 false (Z.pos mz) ez loc_Exact = S754_finite false mz ez.
Proof.
  intros Hd He. unfold binary_round_aux, shr_fexp. simpl Zdigits2. rewrite Hd.
  assert (fexp 53 1024 (53 + ez) - ez = 0) as Hf.
  { unfold fexp, emin. lia. }
  rewrite Hf. simpl. rewrite Hd. rewrite Hf. simpl.
  destruct (ez <=? 1024 - 53) eqn:E; [done | lia].
Qed.

Lemma integer_of_number_of_Z k : 0 <= k <= 2 ^ 53 -> integer_of (number_of_Z k) = Some k.
Proof.
  intros Hk. destruct (decide (k = 2 ^ 53)) as [->|Hne]; [vm_compute; reflexivity|].
  destruct k as [|m|m]; [done| |lia].
  unfold number_of_Z, binary_normalize, binary_round.
  pose proof (digits2_pos_lower m) as Hlow.
  assert (Z.pos (digits2_pos m) <= 53) as Hd.
  { destruct (decide (Z.pos (digits2_pos m) <= 53)); [done|].
    assert (2 ^ 53 <= 2 ^ (Z.pos (digits2_pos m) - 1)) by (apply Z.pow_le_mono_r; lia). lia. }
  assert (fexp 53 1024 (Z.pos (digits2_pos m) + 0) = Z.pos (digits2_pos m) - 53) as ->.
  { unfold fexp, emin. lia. }
  unfold shl_align.
  destruct (Z.pos (digits2_pos m) - 53 - 0) as [|q|q] eqn:E; [|lia|].
  - rewrite binary_round_aux_exact; [|lia|lia]. simpl. f_equal. lia.
  - rewrite binary_round_aux_exact.
    + unfold integer_of.
      destruct (0 <=? Z.pos (digits2_pos m) - 53) eqn:E0; [lia|].
      replace (- (Z.pos (digits2_pos m) - 53)) with (Z.pos q) by lia.
      rewrite iter_xO_value. rewrite Z_mod_mult. simpl.
      rewrite Z_div_mult; [done|]. apply Z.lt_gt, Z.pow_pos_nonneg; lia.
    + rewrite digits2_pos_shift. lia.
    + lia.
Qed.

(** ** The engine's state under updates *)

Lemma lookup_update_store dbname name s w dbname' name' :
  lookup_store dbname' name' (update_store dbname name s w) =
    if decide (dbname = dbname' /\ name = name' /\ is_Some (indexedDB w !! dbname))
    then Some s else lookup_store dbname' name' w.
Proof.
  unfold lookup_store, update_store.
  destruct (indexedDB w !! dbname) as [d|] eqn:E; simpl.
  - destruct (decide (dbname = dbname')) as [<-|Hn].
    + rewrite lookup_insert_eq. simpl. rewrite E. simpl.
      destruct (decide (name = name')) as [<-|Hm].
      * rewrite lookup_insert_eq. rewrite decide_True; [done | eauto].
      * rewrite lookup_insert_ne by done. rewrite decide_False; [done | tauto].
    + rewrite lookup_insert_ne by done. rewrite decide_False; [done | tauto].
  - rewrite decide_False; [done | ]. intros (_ & _ & [? ?]). done.
Qed.

Lemma lookup_update_store_eq dbname name s s0 w :
  lookup_store dbname name w = Some s0 ->
  lookup_store dbname name (update_store dbname name s w) = Some s.
Proof.
  intros H. rewrite lookup_update_store. rewrite decide_True; [done|].
  split_and!; [done..|]. unfold lookup_store in H.
  destruct (indexedDB w !! dbname); [eauto | done].
Qed.

Lemma update_store_same dbname name s w :
  lookup_store dbname name w = Some s ->
  indexedDB (update_store dbname name s w) = indexedDB w.
Proof.
  unfold lookup_store, update_store.
  destruct (indexedDB w !! dbname) as [d|] eqn:E; simpl; [|done].
  intros H. rewrite (insert_id (idb_stores d)) by done.
  destruct d. simpl. by apply insert_id.
Qed.

Lemma db_update_store dbname name s w : db (update_store dbname name s w) = db w.
Proof. unfold update_store. by destruct (indexedDB w !! dbname). Qed.

Ltac js_unfold :=
  unfold mbind, mret, Js_bind, Js_ret, try_catch, throw, console_log, console_error,
    modify_world, require_db in *.

Lemma transaction_ok c mode w s :
  lookup_store (conn_name c) STORE_NAME w = Some s ->
  transaction c [STORE_NAME] mode w =
    (Resolved {| tx_db := conn_name c; tx_scope := [STORE_NAME]; tx_mode := mode |}, w).
Proof.
  unfold lookup_store, transaction.
  destruct (indexedDB w !! conn_name c) as [d|]; simpl; [|done].
  intros H. rewrite bool_decide_eq_true_2 by eauto. done.
Qed.

(** ** What each call computes once the connection and the store are there *)

Section WithStore.
Variables (w : World) (c : IDBDatabase) (s : ObjectStore).
Hypothesis Hdb : db w = Some c.
Hypothesis Hstore : lookup_store (conn_name c) STORE_NAME w = Some s.

Lemma getAll_eq f :
  getAllClippedPages f w =
    match f with
    | Some e => (Rejected e, push_console (error_entry "Failed to get clipped pages:" e) w)
    | None => (Resolved (map snd (store_records s)), w)
    end.
Proof.
  unfold getAllClippedPages. js_unfold. rewrite Hdb.
  rewrite (transaction_ok _ _ _ _ Hstore).
  unfold objectStore, IDBObjectStore_getAll. simpl. js_unfold. rewrite Hstore.
  by destruct f.
Qed.

Lemma clearAll_eq f :
  clearAllClippedPages f w =
    match f with
    | Some e => (Rejected e, push_console (error_entry "Failed to clear pages:" e) w)
    | None =>
        (Resolved tt,
         push_console (log_entry [LText "All pages cleared successfully"])
           (update_store (conn_name c) STORE_NAME (set_records [] (store_keygen s) s) w))
    end.
Proof.
  unfold clearAllClippedPages. js_unfold. rewrite Hdb.
  rewrite (transaction_ok _ _ _ _ Hstore).
  unfold objectStore, IDBObjectStore_clear. simpl. js_unfold. rewrite Hstore.
  by destruct f.
Qed.

Lemma delete_eq id f :
  deleteClippedPage id f w =
    match convert_value_to_key id, f with
    | None, _ =>
        (Rejected (DOMException "DataError"),
         push_console (error_entry "Failed to delete page:" (DOMException "DataError")) w)
    | Some _, Some e => (Rejected e, push_console (error_entry "Failed to delete page:" e) w)
    | Some key, None =>
        (Resolved tt,
         push_console
           (log_entry [LText "Page with ID "; LValue id; LText " deleted successfully"])
           (update_store (conn_name c) STORE_NAME
              (set_records
                 (List.filter (fun r => negb (key_matches key r.1)) (store_records s))
                 (store_keygen s) s) w))
    end.
Proof.
  unfold deleteClippedPage. js_unfold. rewrite Hdb.
  rewrite (transaction_ok _ _ _ _ Hstore).
  unfold objectStore, IDBObjectStore_delete. simpl. js_unfold. rewrite Hstore.
  destruct (convert_value_to_key id); by destruct f.
Qed.

Hypothesis HkeyPath : store_keyPath s = "id".
Hypothesis HautoIncrement : store_autoIncrement s = true.

Lemma add_eq p now f :
  addClippedPage p now f w =
    if nullish p
    then (Rejected (TypeError "Cannot read properties of undefined or null"), w)
    else
      match f with
      | Some e => (Rejected e, push_console (error_entry "Failed to clip page:" e) w)
      | None =>
          let k := store_keygen s in
          if MAX_KEY <? k
          then (Rejected (DOMException "ConstraintError"),
                push_console
                  (error_entry "Failed to clip page:" (DOMException "ConstraintError")) w)
          else (Resolved k,
                push_console (log_entry [LText "Page clipped successfully"])
                  (update_store (conn_name c) STORE_NAME
                     (set_records
                        (insert_record k (stored_record p now k) (store_records s))
                        (k + 1) s) w))
      end.
Proof.
  unfold addClippedPage. js_unfold. rewrite Hdb.
  destruct p; simpl; try done.
  all: rewrite (transaction_ok _ _ _ _ Hstore).
  all: unfold objectStore, IDBObjectStore_add; simpl; js_unfold; rewrite Hstore.
  all: rewrite HkeyPath, HautoIncrement.
  all: destruct f; [done|].
  all: destruct (MAX_KEY <? store_keygen s); done.
Qed.
End WithStore.

Lemma transaction_fail c mode w :
  lookup_store (conn_name c) STORE_NAME w = None ->
  transaction c [STORE_NAME] mode w = (Rejected (transaction_error c w), w).
Proof.
  unfold lookup_store, transaction, transaction_error.
  destruct (indexedDB w !! conn_name c) as [d|]; simpl; [|done].
  intros H. rewrite bool_decide_eq_false_2; [done|]. rewrite H. by intros [? ?].
Qed.

Section WithoutStore.
Variables (w : World) (c : IDBDatabase).
Hypothesis Hdb : db w = Some c.
Hypothesis Hstore : lookup_store (conn_name c) STORE_NAME w = None.

Let e := transaction_error c w.

Lemma getAll_no_store f :
  getAllClippedPages f w =
    (Rejected e, push_console (error_entry "Failed to get clipped pages:" e) w).
Proof.
  unfold getAllClippedPages. js_unfold. rewrite Hdb.
  by rewrite (transaction_fail _ _ _ Hstore).
Qed.

Lemma clearAll_no_store f :
  clearAllClippedPages f w =
    (Rejected e, push_console (error_entry "Failed to clear pages:" e) w).
Proof.
  unfold clearAllClippedPages. js_unfold. rewrite Hdb.
  by rewrite (transaction_fail _ _ _ Hstore).
Qed.

Lemma delete_no_store id f :
  deleteClippedPage id f w =
    (Rejected e, push_console (error_entry "Failed to delete page:" e) w).
Proof.
  unfold deleteClippedPage. js_unfold. rewrite Hdb.
  by rewrite (transaction_fail _ _ _ Hstore).
Qed.

Lemma add_no_store p now f :
  addClippedPage p now f w =
    if nullish p
    then (Rejected (TypeError "Cannot read properties of undefined or null"), w)
    else (Rejected e, push_console (error_entry "Failed to clip page:" e) w).
Proof.
  unfold addClippedPage. js_unfold. rewrite Hdb.
  destruct p; simpl; try done.
  all: by rewrite (transaction_fail _ _ _ Hstore).
Qed.
End WithoutStore.

(** A call that resolves had a connection and found the store. *)
Lemma getAll_resolved f w rs w' :
  getAllClippedPages f w = (Resolved rs, w') ->
  exists c s, db w = Some c /\ lookup_store (conn_name c) STORE_NAME w = Some s.
Proof.
  intros H. destruct (db w) as [c|] eqn:Hdb.
  - destruct (lookup_store (conn_name c) STORE_NAME w) as [s|] eqn:Hs; [eauto|].
    by rewrite (getAll_no_store _ _ Hdb Hs) in H.
  - unfold getAllClippedPages in H. js_unfold. by rewrite Hdb in H.
Qed.

Lemma clearAll_resolved f w u w' :
  clearAllClippedPages f w = (Resolved u, w') ->
  exists c s, db w = Some c /\ lookup_store (conn_name c) STORE_NAME w = Some s.
Proof.
  intros H. destruct (db w) as [c|] eqn:Hdb.
  - destruct (lookup_store (conn_name c) STORE_NAME w) as [s|] eqn:Hs; [eauto|].
    by rewrite (clearAll_no_store _ _ Hdb Hs) in H.
  - unfold clearAllClippedPages in H. js_unfold. by rewrite Hdb in H.
Qed.

Lemma delete_resolved id f w u w' :
  deleteClippedPage id f w = (Resolved u, w') ->
  exists c s, db w = Some c /\ lookup_store (conn_name c) STORE_NAME w = Some s.
Proof.
  intros H. destruct (db w) as [c|] eqn:Hdb.
  - destruct (lookup_store (conn_name c) STORE_NAME w) as [s|] eqn:Hs; [eauto|].
    by rewrite (delete_no_store _ _ Hdb Hs) in H.
  - unfold deleteClippedPage in H. js_unfold. by rewrite Hdb in H.
Qed.

Lemma add_resolved p now f w k w' :
  addClippedPage p now f w = (Resolved k, w') ->
  exists c s, db w = Some c /\ lookup_store (conn_name c) STORE_NAME w = Some s.
Proof.
  intros H. destruct (db w) as [c|] eqn:Hdb.
  - destruct (lookup_store (conn_name c) STORE_NAME w) as [s|] eqn:Hs; [eauto|].
    rewrite (add_no_store _ _ Hdb Hs) in H. by destruct (nullish p).
  - unfold addClippedPage in H. js_unfold. by rewrite Hdb in H.
Qed.

(** ** What [initDB] computes *)

Lemma World_eta w : {| db := db w; indexedDB := indexedDB w; console := console w |} = w.
Proof. by destruct w. Qed.

Lemma update_store_twice dbname name s s' w :
  update_store dbname name s' (update_store dbname name s w) = update_store dbname name s' w.
Proof.
  unfold update_store.
  destruct (indexedDB w !! dbname) as [d|] eqn:E; simpl; [|by rewrite E].
  rewrite lookup_insert_eq. unfold set_indexedDB, set_stores. simpl.
  by rewrite !insert_insert_eq.
Qed.

Lemma update_store_inserted dbname name s d e w :
  update_store dbname name s (set_indexedDB (<[dbname := d]> e) w) =
    set_indexedDB (<[dbname := set_stores (<[name := s]> (idb_stores d)) d]> e) w.
Proof.
  unfold update_store. simpl. rewrite lookup_insert_eq.
  unfold set_indexedDB. simpl. by rewrite insert_insert_eq.
Qed.

Lemma createIndex_ok h name keyPath unique w s :
  os_mode h = versionchange ->
  lookup_store (os_db h) (os_name h) w = Some s ->
  existsb (fun i => String.eqb (index_name i) name) (store_indexes s) = false ->
  createIndex h name keyPath unique w =
    (Resolved tt,
     update_store (os_db h) (os_name h)
       (add_index {| index_name := name; index_keyPath := keyPath; index_unique := unique |} s)
       w).
Proof. unfold createIndex. by intros -> -> ->. Qed.

Lemma open_eq f w :
  indexedDB_open f DB_NAME DB_VERSION onupgradeneeded w =
    match f with
    | Some e => (Rejected e, w)
    | None =>
        let d := stored_database w in
        if DB_VERSION <? idb_version d then (Rejected (DOMException "VersionError"), w)
        else if idb_version d <? 1 then
          match idb_stores d !! STORE_NAME with
          | Some _ => (Rejected (DOMException "AbortError"), w)
          | None =>
              (Resolved connection,
               {| db := db w;
                  indexedDB :=
                    <[DB_NAME :=
                        {| idb_version := DB_VERSION;
                           idb_stores := <[STORE_NAME := clippedPages_schema]> (idb_stores d) |}]>
                      (indexedDB w);
                  console := console w ++ [log_created; log_migrated] |})
          end
        else if idb_version d <? DB_VERSION then
          (Resolved connection,
           {| db := db w;
              indexedDB := <[DB_NAME := set_version DB_VERSION d]> (indexedDB w);
              console := console w ++ [log_migrated] |})
        else (Resolved connection, w)
    end.
Proof.
  unfold indexedDB_open. destruct f as [e|]; [done|].
  fold (stored_database w). set (d := stored_database w). simpl.
  destruct (DB_VERSION <? idb_version d) eqn:E1; [done|].
  destruct (idb_version d <? 1) eqn:E2.
  - assert ((idb_version d <? DB_VERSION) = true) as -> by (unfold DB_VERSION in *; lia).
    unfold onupgradeneeded. simpl. rewrite E2.
    assert ((idb_version d <? 2) = true) as -> by lia.
    set (w1 := set_indexedDB _ w).
    unfold createObjectStore. js_unfold. simpl. unfold w1 at 1. simpl.
    rewrite lookup_insert_eq. simpl.
    destruct (idb_stores d !! STORE_NAME) eqn:E3.
    + unfold w1, set_indexedDB. simpl. by rewrite World_eta.
    + set (h := {| os_db := DB_NAME; os_name := STORE_NAME; os_mode := versionchange |}).
      set (s0 := {| store_keyPath := "id"; store_autoIncrement := true;
                    store_indexes := []; store_records := []; store_keygen := 1 |}).
      assert (is_Some (indexedDB w1 !! DB_NAME)) as Hd.
      { unfold w1. simpl. rewrite lookup_insert_eq. eauto. }
      rewrite (createIndex_ok h "url" "url" false _ s0); [| done | | done].
      2: { simpl. rewrite lookup_update_store. by rewrite decide_True. }
      simpl. rewrite update_store_twice.
      rewrite (createIndex_ok h "timestamp" "timestamp" false _
                 (add_index {| index_name := "url"; index_keyPath := "url";
                               index_unique := false |} s0)); [| done | | done].
      2: { simpl. rewrite lookup_update_store. by rewrite decide_True. }
      simpl. rewrite update_store_twice. unfold w1.
      rewrite update_store_inserted. unfold push_console, set_indexedDB. simpl.
      by rewrite <- !app_assoc.
  - destruct (idb_version d <? DB_VERSION) eqn:E3; [|done].
    unfold onupgradeneeded. simpl. rewrite E2.
    unfold DB_VERSION in E3. js_unfold. by rewrite E3.
Qed.

Lemma initDB_eq f w :
  initDB f w =
    match indexedDB_open f DB_NAME DB_VERSION onupgradeneeded w with
    | (Resolved c, w') => (Resolved tt, push_console log_initialized (set_db (Some c) w'))
    | (Rejected e, w') =>
        (Rejected e, push_console (error_entry "Database initialization failed:" e) w')
    end.
Proof.
  unfold initDB. js_unfold.
  by destruct (indexedDB_open f DB_NAME DB_VERSION onupgradeneeded w) as [[?|?] ?].
Qed.

(** ** The invariant of the adapter's worlds *)

Lemma pristine_inv : adapter_inv pristine.
Proof. split; intros ?; [done|]. unfold lookup_store. simpl. by rewrite lookup_empty. Qed.

Lemma lookup_store_stored_database name w :
  lookup_store DB_NAME name w = idb_stores (stored_database w) !! name.
Proof.
  unfold lookup_store, stored_database.
  destruct (indexedDB w !! DB_NAME); simpl; [done|]. by rewrite lookup_empty.
Qed.

Lemma insert_record_Forall (P : Z * gmap string JsValue -> Prop) k v l :
  P (k, v) -> Forall P l -> Forall P (insert_record k v l).
Proof.
  intros Hk. induction 1 as [|r l Hr Hl IH]; simpl.
  - by constructor.
  - destruct (k <? r.1); repeat constructor; done.
Qed.

Lemma insert_record_elem k v l : (k, v) ∈ insert_record k v l.
Proof.
  induction l as [|r l IH]; simpl.
  - by left.
  - destruct (k <? r.1); [left | by right].
Qed.

Lemma step_ok_refl w : adapter_inv w -> step_ok w w None.
Proof. intros H. split_and!; [done | lia | done]. Qed.

Lemma step_ok_console l w : adapter_inv w -> step_ok w (push_console l w) None.
Proof. intros H. split_and!; [exact H | apply Z.le_refl | done]. Qed.

Lemma step_ok_records w s l g entry r :
  adapter_inv w ->
  lookup_store DB_NAME STORE_NAME w = Some s ->
  Forall (fun r => r.1 < g) l ->
  store_keygen s <= g ->
  (forall k, r = Some k -> k = store_keygen s /\ g = k + 1) ->
  step_ok w (push_console entry (update_store DB_NAME STORE_NAME (set_records l g s) w)) r.
Proof.
  intros [Hc Hs] Hl Hall Hg Hr.
  assert (lookup_store DB_NAME STORE_NAME
            (push_console entry (update_store DB_NAME STORE_NAME (set_records l g s) w))
          = Some (set_records l g s)) as Hnew.
  { change (lookup_store DB_NAME STORE_NAME
              (update_store DB_NAME STORE_NAME (set_records l g s) w) = Some (set_records l g s)).
    by eapply lookup_update_store_eq. }
  unfold step_ok, keygen_of. rewrite Hnew, Hl. simpl. split_and!; [|done..].
  split.
  - simpl. rewrite db_update_store. apply Hc.
  - intros s'. rewrite Hnew. intros [= <-].
    destruct (Hs _ Hl) as (? & ? & ? & ?). by split_and!.
Qed.

(** ** Calls without a connection *)

Section WithoutConnection.
Variable w : World.
Hypothesis Hdb : db w = None.

Lemma add_not_initialized p now f :
  addClippedPage p now f w = (Rejected NotInitializedError, w).
Proof. unfold addClippedPage. js_unfold. by rewrite Hdb. Qed.

Lemma getAll_not_initialized f :
  getAllClippedPages f w = (Rejected NotInitializedError, w).
Proof. unfold getAllClippedPages. js_unfold. by rewrite Hdb. Qed.

Lemma delete_not_initialized id f :
  deleteClippedPage id f w = (Rejected NotInitializedError, w).
Proof. unfold deleteClippedPage. js_unfold. by rewrite Hdb. Qed.

Lemma clearAll_not_initialized f :
  clearAllClippedPages f w = (Rejected NotInitializedError, w).
Proof. unfold clearAllClippedPages. js_unfold. by rewrite Hdb. Qed.
End WithoutConnection.

(** ** Every call keeps the invariant and moves the key generator forward *)

Lemma filter_Forall (P : Z * gmap string JsValue -> Prop) f l :
  Forall P l -> Forall P (List.filter f l).
Proof.
  induction 1 as [|r l Hr Hl IH]; simpl; [constructor|].
  destruct (f r); [by constructor | done].
Qed.

Lemma exec_init_ok f w : adapter_inv w -> step_ok w (initDB f w).2 None.
Proof.
  intros Hinv. rewrite initDB_eq, open_eq.
  destruct f as [e|]; [by apply step_ok_console|]. simpl.
  assert (forall w0, step_ok w w0 None ->
            step_ok w (push_console log_initialized (set_db (Some connection) w0)) None)
    as Hconn.
  { intros w0 ([_ Hs] & Hk & _). split_and!; [|exact Hk|done].
    split; [|exact Hs]. simpl. by intros c [= <-]. }
  destruct (DB_VERSION <? idb_version (stored_database w)); [by apply step_ok_console|].
  destruct (idb_version (stored_database w) <? 1).
  - destruct (idb_stores (stored_database w) !! STORE_NAME) eqn:E;
      [by apply step_ok_console|].
    simpl. apply Hconn.
    match goal with
    | |- step_ok _ ?w' _ =>
        assert (lookup_store DB_NAME STORE_NAME w' = Some clippedPages_schema) as Hnew
    end.
    { unfold lookup_store. simpl. rewrite lookup_insert_eq. simpl.
      by rewrite lookup_insert_eq. }
    destruct Hinv as [Hc Hs]. unfold step_ok, keygen_of.
    rewrite Hnew, lookup_store_stored_database, E. simpl.
    split_and!; [|done..]. split; [exact Hc|].
    intros s. rewrite Hnew. intros [= <-]. by split_and!.
  - assert (forall l, lookup_store DB_NAME STORE_NAME
              {| db := db w;
                 indexedDB := <[DB_NAME := set_version DB_VERSION (stored_database w)]>
                                (indexedDB w);
                 console := l |} = lookup_store DB_NAME STORE_NAME w) as Hsame.
    { intros l. rewrite (lookup_store_stored_database _ w). unfold lookup_store. simpl.
      by rewrite lookup_insert_eq. }
    destruct (idb_version (stored_database w) <? DB_VERSION); simpl; apply Hconn;
      [|by apply step_ok_refl].
    destruct Hinv as [Hc Hs]. unfold step_ok, keygen_of. rewrite Hsame.
    split_and!; [|lia|done]. split; [exact Hc|]. intros s. rewrite Hsame. apply Hs.
Qed.

Lemma exec_ok call w : adapter_inv w -> step_ok w (exec call w).1 (exec call w).2.
Proof.
  intros Hinv. destruct call as [f|p now f|f|id f|f|]; simpl.
  - by apply exec_init_ok.
  - destruct (db w) as [c|] eqn:Hdb;
      [|rewrite add_not_initialized by done; by apply step_ok_refl].
    pose proof (proj1 Hinv _ Hdb) as ->.
    destruct (lookup_store DB_NAME STORE_NAME w) as [s|] eqn:Hs.
    + destruct (proj2 Hinv _ Hs) as (Hkp & Hai & Hix & Hall).
      rewrite (add_eq w connection s Hdb Hs Hkp Hai).
      destruct (nullish p); [by apply step_ok_refl|].
      destruct f; [by apply step_ok_console|]. simpl.
      destruct (MAX_KEY <? store_keygen s); [by apply step_ok_console|]. simpl.
      apply step_ok_records; [done..| |lia|].
      * apply insert_record_Forall; [simpl; lia|].
        eapply Forall_impl; [exact Hall|]. simpl. intros; lia.
      * by intros k [= <-].
    + rewrite (add_no_store w connection Hdb Hs).
      destruct (nullish p); [by apply step_ok_refl | by apply step_ok_console].
  - destruct (db w) as [c|] eqn:Hdb;
      [|rewrite getAll_not_initialized by done; by apply step_ok_refl].
    pose proof (proj1 Hinv _ Hdb) as ->.
    destruct (lookup_store DB_NAME STORE_NAME w) as [s|] eqn:Hs.
    + rewrite (getAll_eq w connection s Hdb Hs).
      destruct f; [by apply step_ok_console | by apply step_ok_refl].
    + rewrite (getAll_no_store w connection Hdb Hs). by apply step_ok_console.
  - destruct (db w) as [c|] eqn:Hdb;
      [|rewrite delete_not_initialized by done; by apply step_ok_refl].
    pose proof (proj1 Hinv _ Hdb) as ->.
    destruct (lookup_store DB_NAME STORE_NAME w) as [s|] eqn:Hs.
    + destruct (proj2 Hinv _ Hs) as (Hkp & Hai & Hix & Hall).
      rewrite (delete_eq w connection s Hdb Hs).
      destruct (convert_value_to_key id); [|by apply step_ok_console].
      destruct f; [by apply step_ok_console|]. simpl.
      apply step_ok_records; [done..| |lia|done].
      by apply filter_Forall.
    + rewrite (delete_no_store w connection Hdb Hs). by apply step_ok_console.
  - destruct (db w) as [c|] eqn:Hdb;
      [|rewrite clearAll_not_initialized by done; by apply step_ok_refl].
    pose proof (proj1 Hinv _ Hdb) as ->.
    destruct (lookup_store DB_NAME STORE_NAME w) as [s|] eqn:Hs.
    + rewrite (clearAll_eq w connection s Hdb Hs).
      destruct f; [by apply step_ok_console|]. simpl.
      apply step_ok_records; [done..|constructor|lia|done].
    + rewrite (clearAll_no_store w connection Hdb Hs). by apply step_ok_console.
  - destruct Hinv as [Hc Hs]. split_and!; [|apply Z.le_refl|done].
    split; [done | exact Hs].
Qed.

Lemma run_ok calls : forall w,
  adapter_inv w ->
  adapter_inv (run calls w).1 /\
  keygen_of w <= keygen_of (run calls w).1 /\
  Forall (fun k => keygen_of w <= k < keygen_of (run calls w).1) (run calls w).2 /\
  StronglySorted Z.lt (run calls w).2.
Proof.
  induction calls as [|call calls IH]; intros w Hinv; simpl.
  - split_and!; [done | lia | constructor | constructor].
  - pose proof (exec_ok call w Hinv) as (Hinv1 & Hle1 & Hid).
    destruct (exec call w) as [w1 r]. simpl in *.
    destruct (IH w1 Hinv1) as (Hinv2 & Hle2 & Hall & Hsorted).
    destruct (run calls w1) as [w2 ids]. simpl in *.
    assert (Forall (fun k => keygen_of w <= k < keygen_of w2) ids) as Hall'.
    { eapply Forall_impl; [exact Hall|]. simpl. intros; lia. }
    destruct r as [k|]; [|split_and!; [done | lia | done | done]].
    destruct (Hid k eq_refl) as [-> Hnext].
    split_and!; [done | lia | | ].
    + constructor; [lia | done].
    + constructor; [done|]. eapply Forall_impl; [exact Hall|]. simpl. intros; lia.
Qed.

(** ** The scenarios of section 8 of the specification *)

Example scenario_1 :
  let page := obj [("title", JString "A"); ("url", JString "http://x");
                   ("content", JString "hi"); ("wordCount", JNumber (number_of_Z 2));
                   ("readingTime", JNumber (number_of_Z 1))] in
  let now := "2024-05-01T10:00:00.000Z" in
  let w1 := (addClippedPage page now None ready_world).2 in
  (initDB None pristine).1 = Resolved tt /\
  (addClippedPage page now None ready_world).1 = Resolved 1 /\
  (getAllClippedPages None w1).1 =
    Resolved [list_to_map [("id", JNumber (number_of_Z 1)); ("title", JString "A");
                           ("url", JString "http://x"); ("content", JString "hi");
                           ("timestamp", JString now); ("favicon", JString "");
                           ("wordCount", JNumber (number_of_Z 2));
                           ("readingTime", JNumber (number_of_Z 1))]].
Proof. split_and!; vm_compute; reflexivity. Qed.

Example scenario_4 :
  let now := "2024-05-01T10:00:00.000Z" in
  let w1 := (addClippedPage (obj [("title", JString "first")]) now None ready_world).2 in
  let w2 := (addClippedPage (obj [("title", JString "second")]) now None w1).2 in
  let w3 := (deleteClippedPage (JNumber (number_of_Z 1)) None w2).2 in
  (deleteClippedPage (JNumber (number_of_Z 1)) None w2).1 = Resolved tt /\
  (getAllClippedPages None w3).1 =
    Resolved [stored_record (obj [("title", JString "second")]) now 2].
Proof. split_and!; vm_compute; reflexivity. Qed.

Example scenario_5 :
  let w1 := (clearAllClippedPages None sample_world).2 in
  length (store_records sample_store) = 3%nat /\
  (clearAllClippedPages None sample_world).1 = Resolved tt /\
  (getAllClippedPages None w1).1 = Resolved [] /\
  (addClippedPage (obj []) "2024-05-01T10:00:09.000Z" None w1).1 = Resolved 4.
Proof. split_and!; vm_compute; reflexivity. Qed.

(** * The properties of the specification *)

(** ** Before initialization *)

(** C2: while the connection is unset, each of add, listAll, deleteById and
    clearAll fails with the not-initialized error and hands back the world
    it was given: the stored collection, the connection and the console
    are all as before. *)
Theorem C2_not_initialized_no_mutation (w : World) (p id : JsValue) (now : string)
    (f : option JsError) :
  db w = None ->
  addClippedPage p now f w = (Rejected NotInitializedError, w) /\
  getAllClippedPages f w = (Rejected NotInitializedError, w) /\
  deleteClippedPage id f w = (Rejected NotInitializedError, w) /\
  clearAllClippedPages f w = (Rejected NotInitializedError, w).
Proof.
  intros Hdb. split_and!.
  - by apply add_not_initialized.
  - by apply getAll_not_initialized.
  - by apply delete_not_initialized.
  - by apply clearAll_not_initialized.
Qed.

Lemma C2_witness :
  addClippedPage (obj []) "2024-05-01T10:00:03.000Z" None sample_world_unset
    = (Rejected NotInitializedError, sample_world_unset) /\
  getAllClippedPages None sample_world_unset
    = (Rejected NotInitializedError, sample_world_unset) /\
  deleteClippedPage (JNumber (number_of_Z 1)) None sample_world_unset
    = (Rejected NotInitializedError, sample_world_unset) /\
  clearAllClippedPages None sample_world_unset
    = (Rejected NotInitializedError, sample_world_unset).
Proof. apply C2_not_initialized_no_mutation. reflexivity. Defined.

(** ** clearAll *)

(** C5: whatever the collection held, once clearAll has resolved a listAll
    resolves with the empty sequence. *)
Theorem C5_clearAll_then_listAll_empty (w w1 : World) (f : option JsError) :
  clearAllClippedPages f w = (Resolved tt, w1) ->
  getAllClippedPages None w1 = (Resolved [], w1).
Proof.
  intros H. destruct (clearAll_resolved _ _ _ _ H) as (c & s & Hdb & Hs).
  rewrite (clearAll_eq w c s Hdb Hs) in H. destruct f; [done|].
  injection H as <-.
  rewrite (getAll_eq _ c (set_records [] (store_keygen s) s)); [done | | ].
  - simpl. by rewrite db_update_store.
  - change (lookup_store (conn_name c) STORE_NAME
              (update_store (conn_name c) STORE_NAME (set_records [] (store_keygen s) s) w)
            = Some (set_records [] (store_keygen s) s)).
    by eapply lookup_update_store_eq.
Qed.

Lemma C5_witness :
  getAllClippedPages None (clearAllClippedPages None sample_world).2
    = (Resolved [], (clearAllClippedPages None sample_world).2).
Proof.
  apply (C5_clearAll_then_listAll_empty sample_world _ None).
  vm_compute. reflexivity.
Defined.

(** ** deleteById *)

Lemma filter_filter_same {A : Type} (f : A -> bool) (l : list A) :
  List.filter f (List.filter f l) = List.filter f l.
Proof.
  induction l as [|a l IH]; simpl; [done|].
  destruct (f a) eqn:E; simpl; [|done]. by rewrite E, IH.
Qed.

Lemma filter_all_kept {A : Type} (f : A -> bool) (l : list A) :
  Forall (fun a => f a = true) l -> List.filter f l = l.
Proof. induction 1 as [|a l Ha Hl IH]; simpl; [done|]. by rewrite Ha, IH. Qed.

Lemma elem_of_filter_bool {A : Type} (f : A -> bool) (l : list A) (a : A) :
  a ∈ List.filter f l <-> a ∈ l /\ f a = true.
Proof. rewrite !list_elem_of_In. apply List.filter_In. Qed.

Lemma set_records_same s : set_records (store_records s) (store_keygen s) s = s.
Proof. by destruct s. Qed.

(** An id that is an integer is a key, and it is the key of the records
    stored under that integer. *)
Lemma integer_id_is_key x k :
  integer_of x = Some k ->
  convert_value_to_key (JNumber x) = Some (KeyNumber x) /\
  forall k', key_matches (KeyNumber x) k' = (k' =? k).
Proof.
  intros H. split.
  - by destruct x.
  - intros k'. simpl. by rewrite H.
Qed.

(** The id of a key the generator can hand out is the key of the records
    stored under it, and of no other. *)
Lemma generated_id_is_key k :
  0 <= k <= MAX_KEY ->
  convert_value_to_key (JNumber (number_of_Z k)) = Some (KeyNumber (number_of_Z k)) /\
  forall k', key_matches (KeyNumber (number_of_Z k)) k' = (k' =? k).
Proof. intros Hk. apply integer_id_is_key. by apply integer_of_number_of_Z. Qed.

(** C4: with the connection set, the store there and an id that is a key
    (every integer id is one), deleteById resolves; listAll then reports the
    records that were there, in the same order and unchanged, without the
    one stored under the id; a second deleteById with the same id resolves
    too and leaves the engine's state as the first left it; and when no
    record is stored under the id the engine's state is not changed at
    all. *)
Theorem C4_deleteById (w : World) (s : ObjectStore) (id : JsValue) (key : IDBKey) :
  current_store w = Some s ->
  convert_value_to_key id = Some key ->
  let kept := List.filter (fun r => negb (key_matches key r.1)) (store_records s) in
  exists w1 w2,
    deleteClippedPage id None w = (Resolved tt, w1) /\
    getAllClippedPages None w = (Resolved (map snd (store_records s)), w) /\
    getAllClippedPages None w1 = (Resolved (map snd kept), w1) /\
    (forall r, r ∈ kept <-> r ∈ store_records s /\ key_matches key r.1 = false) /\
    (forall x k, id = JNumber x -> integer_of x = Some k ->
       forall r, r ∈ kept <-> r ∈ store_records s /\ r.1 <> k) /\
    deleteClippedPage id None w1 = (Resolved tt, w2) /\
    indexedDB w2 = indexedDB w1 /\
    db w2 = db w1 /\
    (Forall (fun r => key_matches key r.1 = false) (store_records s) ->
     indexedDB w1 = indexedDB w).
Proof.
  intros Hcur Hkey kept. unfold current_store in Hcur.
  destruct (db w) as [c|] eqn:Hdb; [|done]. simpl in Hcur.
  set (s1 := set_records kept (store_keygen s) s).
  set (w0 := update_store (conn_name c) STORE_NAME s1 w).
  set (entry := log_entry [LText "Page with ID "; LValue id; LText " deleted successfully"]).
  assert (db (push_console entry w0) = Some c) as Hdb1.
  { simpl. unfold w0. by rewrite db_update_store. }
  assert (lookup_store (conn_name c) STORE_NAME (push_console entry w0) = Some s1) as Hs1.
  { change (lookup_store (conn_name c) STORE_NAME w0 = Some s1).
    by eapply lookup_update_store_eq. }
  assert (forall r, r ∈ kept <-> r ∈ store_records s /\ key_matches key r.1 = false) as Hkept.
  { intros r. unfold kept. rewrite elem_of_filter_bool.
    by rewrite negb_true_iff. }
  exists (push_console entry w0),
    (push_console entry (update_store (conn_name c) STORE_NAME s1 (push_console entry w0))).
  split_and!.
  - rewrite (delete_eq w c s Hdb Hcur). by rewrite Hkey.
  - by rewrite (getAll_eq w c s Hdb Hcur).
  - by rewrite (getAll_eq _ c s1 Hdb1 Hs1).
  - exact Hkept.
  - intros x k -> Hk r. rewrite Hkept.
    destruct (integer_id_is_key _ _ Hk) as [Hconv Hmatch].
    rewrite Hconv in Hkey. injection Hkey as <-. by rewrite Hmatch, Z.eqb_neq.
  - rewrite (delete_eq _ c s1 Hdb1 Hs1). rewrite Hkey.
    replace (set_records _ (store_keygen s1) s1) with s1; [done|].
    unfold s1 at 1. simpl. unfold kept. by rewrite filter_filter_same.
  - change (indexedDB (update_store (conn_name c) STORE_NAME s1 (push_console entry w0))
            = indexedDB (push_console entry w0)).
    by apply update_store_same.
  - simpl. by rewrite db_update_store.
  - intros Hnone. simpl. unfold w0, s1, kept.
    rewrite filter_all_kept.
    + rewrite set_records_same. by apply update_store_same.
    + eapply Forall_impl; [exact Hnone|]. simpl. by intros r ->.
Qed.

Lemma C4_witness :
  current_store sample_world = Some sample_store /\
  convert_value_to_key (JNumber (number_of_Z 2)) = Some (KeyNumber (number_of_Z 2)) /\
  exists w1 w2,
    deleteClippedPage (JNumber (number_of_Z 2)) None sample_world = (Resolved tt, w1) /\
    deleteClippedPage (JNumber (number_of_Z 2)) None w1 = (Resolved tt, w2) /\
    indexedDB w2 = indexedDB w1.
Proof.
  assert (current_store sample_world = Some sample_store) as Hs
    by (vm_compute; reflexivity).
  assert (convert_value_to_key (JNumber (number_of_Z 2)) = Some (KeyNumber (number_of_Z 2)))
    as Hk by (vm_compute; reflexivity).
  split_and!; [exact Hs | exact Hk |].
  destruct (C4_deleteById sample_world sample_store _ _ Hs Hk)
    as (w1 & w2 & H1 & _ & _ & _ & _ & H6 & H7 & _).
  exists w1, w2. split_and!; assumption.
Defined.

(** ** initialize *)

Lemma open_rejected f w e w' :
  indexedDB_open f DB_NAME DB_VERSION onupgradeneeded w = (Rejected e, w') -> w' = w.
Proof.
  rewrite open_eq. destruct f; [by intros [= _ <-]|]. simpl.
  destruct (DB_VERSION <? idb_version (stored_database w)); [by intros [= _ <-]|].
  destruct (idb_version (stored_database w) <? 1).
  - destruct (idb_stores (stored_database w) !! STORE_NAME); [by intros [= _ <-] | done].
  - by destruct (idb_version (stored_database w) <? DB_VERSION).
Qed.

(** [initDB] reads the engine's state only, and the console is write-only. *)
Lemma initDB_same_engine f w w' :
  indexedDB w' = indexedDB w ->
  (initDB f w').1 = (initDB f w).1 /\
  indexedDB (initDB f w').2 = indexedDB (initDB f w).2 /\
  (db w' = db w -> db (initDB f w').2 = db (initDB f w).2).
Proof.
  intros He. rewrite !initDB_eq, !open_eq.
  assert (stored_database w' = stored_database w) as ->
    by (unfold stored_database; by rewrite He).
  destruct f; [done|]. simpl.
  destruct (DB_VERSION <? idb_version (stored_database w)); [done|].
  destruct (idb_version (stored_database w) <? 1).
  - destruct (idb_stores (stored_database w) !! STORE_NAME); [done|]. simpl.
    by rewrite He.
  - destruct (idb_version (stored_database w) <? DB_VERSION); simpl; by rewrite He.
Qed.

Lemma initDB_healthy w :
  idb_version (stored_database w) <= DB_VERSION ->
  (idb_version (stored_database w) < 1 -> idb_stores (stored_database w) !! STORE_NAME = None) ->
  (initDB None w).1 = Resolved tt /\ db (initDB None w).2 = Some connection.
Proof.
  intros Hv Hs. rewrite initDB_eq, open_eq. simpl.
  destruct (DB_VERSION <? idb_version (stored_database w)) eqn:E1; [lia|].
  destruct (idb_version (stored_database w) <? 1) eqn:E2.
  - rewrite Hs by lia. done.
  - by destruct (idb_version (stored_database w) <? DB_VERSION).
Qed.

(** C6: when the connection is unset and the open request ends in an error,
    whether the engine reports it for the request, refuses the version or
    aborts the upgrade, initialize rejects with that same error, logs it,
    and leaves the connection unset and the engine's state as it was. A
    further initialize then does what a first one would have done: same
    outcome, same connection, same engine state; with an engine that does
    not fail it resolves and sets the connection. *)
Theorem C6_initialize_failure (w w' : World) (f : option JsError) (e : JsError) :
  db w = None ->
  indexedDB_open f DB_NAME DB_VERSION onupgradeneeded w = (Rejected e, w') ->
  exists w1,
    initDB f w = (Rejected e, w1) /\
    db w1 = None /\
    indexedDB w1 = indexedDB w /\
    console w1 = console w ++ [error_entry "Database initialization failed:" e] /\
    (forall f',
       (initDB f' w1).1 = (initDB f' w).1 /\
       indexedDB (initDB f' w1).2 = indexedDB (initDB f' w).2 /\
       db (initDB f' w1).2 = db (initDB f' w).2) /\
    (idb_version (stored_database w) <= DB_VERSION ->
     (idb_version (stored_database w) < 1 ->
      idb_stores (stored_database w) !! STORE_NAME = None) ->
     (initDB None w1).1 = Resolved tt /\ db (initDB None w1).2 = Some connection).
Proof.
  intros Hdb Hopen. pose proof (open_rejected _ _ _ _ Hopen) as ->.
  exists (push_console (error_entry "Database initialization failed:" e) w).
  split_and!; try done.
  - by rewrite initDB_eq, Hopen.
  - intros f'.
    destruct (initDB_same_engine f' w
                (push_console (error_entry "Database initialization failed:" e) w) eq_refl)
      as (H1 & H2 & H3).
    split_and!; [done | done | by apply H3].
  - intros Hv Hs. by apply initDB_healthy.
Qed.

Lemma C6_witness :
  exists w1,
    initDB (Some (DOMException "UnknownError")) pristine
      = (Rejected (DOMException "UnknownError"), w1) /\
    db w1 = None /\
    (initDB None w1).1 = Resolved tt /\
    db (initDB None w1).2 = Some connection.
Proof.
  destruct (C6_initialize_failure pristine pristine
              (Some (DOMException "UnknownError")) (DOMException "UnknownError"))
    as (w1 & H1 & H2 & _ & _ & _ & H6).
  - reflexivity.
  - reflexivity.
  - exists w1. destruct H6 as [H6 H7]; [vm_compute; discriminate | done |].
    split_and!; assumption.
Defined.

(** C8: on the first open, with nothing stored under the name (version 0),
    initialize resolves and leaves the database at version 2 with the one
    collection clippedPages: key path [id], key generator on, no records,
    and the two non-unique indexes [url] and [timestamp]. On an open that
    finds version 1 it resolves, sets the version to 2, logs the migration
    line and leaves every store as it found it. And through any sequence of
    calls from a world of the adapter, the collection keeps that key path,
    generator and that pair of indexes. *)
Theorem C8_schema (w : World) :
  (stored_database w = new_database ->
   exists w1,
     initDB None w = (Resolved tt, w1) /\
     indexedDB w1 =
       <[DB_NAME :=
           {| idb_version := 2;
              idb_stores :=
                {[STORE_NAME :=
                    {| store_keyPath := "id";
                       store_autoIncrement := true;
                       store_indexes :=
                         [{| index_name := "url"; index_keyPath := "url";
                             index_unique := false |};
                          {| index_name := "timestamp"; index_keyPath := "timestamp";
                             index_unique := false |}];
                       store_records := [];
                       store_keygen := 1 |}]} |}]> (indexedDB w) /\
     db w1 = Some connection) /\
  (forall d, indexedDB w !! DB_NAME = Some d -> idb_version d = 1 ->
   exists w1,
     initDB None w = (Resolved tt, w1) /\
     indexedDB w1 = <[DB_NAME := {| idb_version := 2; idb_stores := idb_stores d |}]> (indexedDB w) /\
     console w1 = console w ++ [log_migrated; log_initialized] /\
     db w1 = Some connection) /\
  (adapter_inv w ->
   forall calls s,
     lookup_store DB_NAME STORE_NAME (run calls w).1 = Some s ->
     store_keyPath s = "id" /\
     store_autoIncrement s = true /\
     store_indexes s =
       [{| index_name := "url"; index_keyPath := "url"; index_unique := false |};
        {| index_name := "timestamp"; index_keyPath := "timestamp"; index_unique := false |}]).
Proof.
  split_and!.
  - intros Hd. rewrite initDB_eq, open_eq, Hd. simpl. eexists. split; [done|].
    simpl. rewrite insert_empty. done.
  - intros d Hd Hv. rewrite initDB_eq, open_eq.
    unfold stored_database. rewrite Hd. simpl. rewrite Hv. simpl.
    eexists. split; [done|]. simpl. rewrite <- app_assoc. done.
  - intros Hinv calls s Hs.
    destruct (run_ok calls w Hinv) as ([_ Hstore] & _).
    destruct (Hstore s Hs) as (? & ? & ? & _). done.
Qed.

Lemma C8_witness :
  (exists w1, initDB None pristine = (Resolved tt, w1) /\
              lookup_store DB_NAME STORE_NAME w1 = Some clippedPages_schema) /\
  (exists w1, initDB None legacy_world = (Resolved tt, w1) /\
              lookup_store DB_NAME STORE_NAME w1
                = lookup_store DB_NAME STORE_NAME legacy_world) /\
  (forall s, lookup_store DB_NAME STORE_NAME sample_world = Some s ->
             store_keyPath s = "id").
Proof.
  split_and!.
  - destruct (proj1 (C8_schema pristine)) as (w1 & H1 & H2 & _); [reflexivity|].
    exists w1. split; [done|]. unfold lookup_store. rewrite H2.
    vm_compute. reflexivity.
  - destruct (proj1 (proj2 (C8_schema legacy_world))
                (default new_database (indexedDB legacy_world !! DB_NAME)))
      as (w1 & H1 & H2 & _); [vm_compute; reflexivity | reflexivity |].
    exists w1. split; [done|]. unfold lookup_store. rewrite H2.
    vm_compute. reflexivity.
  - intros s Hs.
    destruct (proj2 (proj2 (C8_schema pristine)) pristine_inv sample_calls s Hs)
      as (H & _). exact H.
Defined.

(** ** add *)

Lemma ready_connection w s :
  ready w s ->
  exists c, db w = Some c /\ lookup_store (conn_name c) STORE_NAME w = Some s /\
            store_keyPath s = "id" /\ store_autoIncrement s = true.
Proof.
  unfold ready, current_store. intros (Hcur & Hkp & Hai).
  destruct (db w) as [c|]; [|done]. exists c. by split_and!.
Qed.

(** What a resolved add leaves behind. *)
Lemma add_stored w s p now f k w1 :
  ready w s ->
  addClippedPage p now f w = (Resolved k, w1) ->
  k = store_keygen s /\ f = None /\ nullish p = false /\
  ready w1 (set_records (insert_record k (stored_record p now k) (store_records s)) (k + 1) s) /\
  getAllClippedPages None w1 =
    (Resolved (map snd (insert_record k (stored_record p now k) (store_records s))), w1) /\
  stored_record p now k ∈ map snd (insert_record k (stored_record p now k) (store_records s)).
Proof.
  intros Hready Hadd.
  destruct (ready_connection _ _ Hready) as (c & Hdb & Hs & Hkp & Hai).
  rewrite (add_eq w c s Hdb Hs Hkp Hai) in Hadd.
  destruct (nullish p); [done|]. destruct f; [done|]. simpl in Hadd.
  destruct (MAX_KEY <? store_keygen s); [done|]. injection Hadd as <- <-.
  set (k := store_keygen s).
  set (s1 := set_records (insert_record k (stored_record p now k) (store_records s)) (k + 1) s).
  set (entry := log_entry [LText "Page clipped successfully"]).
  assert (db (push_console entry (update_store (conn_name c) STORE_NAME s1 w)) = Some c)
    as Hdb1 by (simpl; by rewrite db_update_store).
  assert (lookup_store (conn_name c) STORE_NAME
            (push_console entry (update_store (conn_name c) STORE_NAME s1 w)) = Some s1)
    as Hs1.
  { change (lookup_store (conn_name c) STORE_NAME
              (update_store (conn_name c) STORE_NAME s1 w) = Some s1).
    by eapply lookup_update_store_eq. }
  split_and!; try done.
  - unfold ready, current_store. rewrite Hdb1. simpl. by split_and!.
  - by rewrite (getAll_eq _ c s1 Hdb1 Hs1).
  - rewrite list_elem_of_In. apply (in_map snd _ (k, stored_record p now k)).
    rewrite <- list_elem_of_In. apply insert_record_elem.
Qed.

(** An add goes through when a page object is given, the engine reports no
    error and the key generator has a key left. *)
Lemma add_succeeds w s p now :
  ready w s ->
  nullish p = false ->
  store_keygen s <= MAX_KEY ->
  exists w1, addClippedPage p now None w = (Resolved (store_keygen s), w1).
Proof.
  intros Hready Hp Hk.
  destruct (ready_connection _ _ Hready) as (c & Hdb & Hs & Hkp & Hai).
  rewrite (add_eq w c s Hdb Hs Hkp Hai), Hp.
  destruct (MAX_KEY <? store_keygen s) eqn:E; [lia|]. simpl. rewrite E. eauto.
Qed.

(** In a world of the adapter, a connection means the store is as
    [onupgradeneeded] makes it. *)
Lemma adapter_inv_ready w s :
  adapter_inv w -> current_store w = Some s -> ready w s /\ store_inv s.
Proof.
  intros [Hc Hs] Hcur. unfold current_store in Hcur.
  destruct (db w) as [c|] eqn:Hdb; [|done]. simpl in Hcur.
  rewrite (Hc c eq_refl) in Hcur. simpl in Hcur.
  destruct (Hs _ Hcur) as (Hkp & Hai & Hix & Hall).
  split; [|done]. unfold ready, current_store. rewrite Hdb. simpl.
  rewrite (Hc c eq_refl). done.
Qed.

(** A page with an empty title is a valid input, its add resolves with id 1
    and listAll then reports one record; that record has the title
    "Untitled", where the table of section 3, which gives the default to an
    absent title only, keeps the empty title. *)
Lemma C1_counterexample :
  let now := "2024-05-01T10:00:00.000Z" in
  let w1 := (addClippedPage empty_title_page now None ready_world).2 in
  spec_valid_page_input empty_title_page = true /\
  (addClippedPage empty_title_page now None ready_world).1 = Resolved 1 /\
  (getAllClippedPages None w1).1 = Resolved [stored_record empty_title_page now 1] /\
  stored_record empty_title_page now 1 !! "title" = Some (JString "Untitled") /\
  spec_normalize empty_title_page now !! "title" = Some (JString "") /\
  stored_record empty_title_page now 1
    <> <["id" := JNumber (number_of_Z 1)]> (spec_normalize empty_title_page now).
Proof.
  intros now w1. split_and!; try (vm_compute; reflexivity).
  intros H. apply (f_equal (fun m => m !! "title")) in H. vm_compute in H. discriminate.
Qed.

(** C1 (amended): in a world the adapter has made, an add that resolves with
    id k leaves a store from which listAll resolves with a list that holds
    the record of the input as the code normalizes it (a text field that is
    absent or falsy replaced by its default, a word count or reading time
    that is not a finite number replaced by 0 or 1) with id k; every id
    handed out before k is smaller than k, every record in the store before
    the add has a key smaller than k, and every id handed out afterwards is
    greater than k. *)
Theorem C1_add_then_listAll (w0 : World) (calls : list Call) (p : JsValue) (now : string)
    (f : option JsError) (k : Z) (w1 : World) :
  adapter_inv w0 ->
  addClippedPage p now f (run calls w0).1 = (Resolved k, w1) ->
  (exists rs, getAllClippedPages None w1 = (Resolved rs, w1) /\ stored_record p now k ∈ rs) /\
  Forall (fun k' => k' < k) (run calls w0).2 /\
  (forall s r, current_store (run calls w0).1 = Some s -> r ∈ store_records s -> r.1 < k) /\
  (forall calls', Forall (fun k' => k < k') (run calls' w1).2).
Proof.
  intros Hinv0 Hadd.
  destruct (run_ok calls w0 Hinv0) as (Hinv & _ & Hids & _).
  set (w := (run calls w0).1) in *.
  destruct (add_resolved _ _ _ _ _ _ Hadd) as (c & s & Hdb & Hs).
  assert (current_store w = Some s) as Hcur
    by (unfold current_store; rewrite Hdb; done).
  destruct (adapter_inv_ready _ _ Hinv Hcur) as (Hready & _ & _ & _ & Hall).
  destruct (add_stored _ _ _ _ _ _ _ Hready Hadd) as (Hk & _ & _ & _ & Hget & Hin).
  pose proof (exec_ok (CallAddPage p now f) w Hinv) as (Hinv1 & _ & Hnext).
  simpl in Hinv1, Hnext. rewrite Hadd in Hinv1, Hnext. simpl in Hinv1, Hnext.
  destruct (Hnext k eq_refl) as [Hkw Hk1].
  split_and!.
  - eauto.
  - eapply Forall_impl; [exact Hids|]. simpl. intros; lia.
  - intros s' r Hs' Hr. rewrite Hcur in Hs'. injection Hs' as <-.
    rewrite Forall_forall in Hall. specialize (Hall r Hr). lia.
  - intros calls'. destruct (run_ok calls' w1 Hinv1) as (_ & _ & Hids' & _).
    eapply Forall_impl; [exact Hids'|]. simpl. intros; lia.
Qed.

Lemma C1_witness :
  let now := "2024-05-01T10:00:03.000Z" in
  let w1 := (addClippedPage sample_page now None sample_world).2 in
  (exists rs, getAllClippedPages None w1 = (Resolved rs, w1) /\
              stored_record sample_page now 4 ∈ rs) /\
  Forall (fun k' => k' < 4) (run sample_calls pristine).2 /\
  (forall s r, current_store sample_world = Some s -> r ∈ store_records s -> r.1 < 4) /\
  (forall calls', Forall (fun k' => 4 < k') (run calls' w1).2).
Proof.
  intros now w1.
  apply (C1_add_then_listAll pristine sample_calls sample_page now None 4 w1).
  - exact pristine_inv.
  - vm_compute. reflexivity.
Defined.

Lemma isFinite_number v : Number_isFinite v = true -> exists x, v = JNumber x.
Proof. destruct v; try done. eauto. Qed.

Lemma js_or_text a d :
  is_text a = true \/ truthy a = false -> is_text (js_or a (JString d)) = true.
Proof.
  unfold js_or. intros [H|H].
  - by destruct (truthy a).
  - by rewrite H.
Qed.

(** An add with word count -5 and reading time 2.5 resolves, and listAll
    then reports the record with these two values as they were given:
    neither is an integer >= 0. *)
Lemma C3_counterexample :
  let now := "2024-05-01T10:00:00.000Z" in
  let w1 := (addClippedPage odd_counts_page now None ready_world).2 in
  let r := stored_record odd_counts_page now 1 in
  (addClippedPage odd_counts_page now None ready_world).1 = Resolved 1 /\
  (getAllClippedPages None w1).1 = Resolved [r] /\
  r !! "wordCount" = Some (JNumber (number_of_Z (-5))) /\
  integer_of (number_of_Z (-5)) = Some (-5) /\
  is_count (JNumber (number_of_Z (-5))) = false /\
  r !! "readingTime" = Some (JNumber (S754_finite false 5629499534213120 (-51))) /\
  integer_of (S754_finite false 5629499534213120 (-51)) = None /\
  is_count (JNumber (S754_finite false 5629499534213120 (-51))) = false.
Proof. intros now w1 r. split_and!; vm_compute; reflexivity. Qed.

(** C3 (amended): after an add that resolved with id k, listAll reports the
    record of the add, which has all eight fields. Its id is the number k.
    Its wordCount and readingTime are finite numbers: the input's value
    when that is a finite number, whatever its sign or fraction, and
    otherwise 0 and 1. Each of title, url, content, timestamp and favicon is
    the input's value when that is truthy and the default text otherwise, so
    it is text whenever the input's value is text or falsy. *)
Theorem C3_stored_record_fields (w w1 : World) (s : ObjectStore) (p : JsValue) (now : string)
    (f : option JsError) (k : Z) :
  ready w s ->
  addClippedPage p now f w = (Resolved k, w1) ->
  let r := stored_record p now k in
  (exists rs, getAllClippedPages None w1 = (Resolved rs, w1) /\ r ∈ rs) /\
  Forall (fun name => is_Some (r !! name))
    ["id"; "title"; "url"; "content"; "timestamp"; "favicon"; "wordCount"; "readingTime"] /\
  r !! "id" = Some (JNumber (number_of_Z k)) /\
  (exists x, r !! "wordCount" = Some (JNumber x) /\ Number_isFinite (JNumber x) = true /\
     JNumber x = if Number_isFinite (prop p "wordCount") then prop p "wordCount"
                 else JNumber (number_of_Z 0)) /\
  (exists x, r !! "readingTime" = Some (JNumber x) /\ Number_isFinite (JNumber x) = true /\
     JNumber x = if Number_isFinite (prop p "readingTime") then prop p "readingTime"
                 else JNumber (number_of_Z 1)) /\
  Forall (fun '(name, dflt) =>
            r !! name = Some (js_or (prop p name) (JString dflt)) /\
            (is_text (prop p name) = true \/ truthy (prop p name) = false ->
             from_option is_text false (r !! name) = true))
    [("title", "Untitled"); ("url", ""); ("content", ""); ("timestamp", now); ("favicon", "")].
Proof.
  intros Hready Hadd r.
  destruct (add_stored _ _ _ _ _ _ _ Hready Hadd) as (_ & _ & _ & _ & Hget & Hin).
  split_and!.
  - eauto.
  - repeat constructor; by eexists.
  - done.
  - assert (r !! "wordCount" =
              Some (if Number_isFinite (prop p "wordCount") then prop p "wordCount"
                    else JNumber (number_of_Z 0))) as Hwc by reflexivity.
    rewrite Hwc. destruct (Number_isFinite (prop p "wordCount")) eqn:E.
    + destruct (isFinite_number _ E) as [x Hx]. exists x. rewrite <- Hx. done.
    + eexists. split_and!; reflexivity.
  - assert (r !! "readingTime" =
              Some (if Number_isFinite (prop p "readingTime") then prop p "readingTime"
                    else JNumber (number_of_Z 1))) as Hrt by reflexivity.
    rewrite Hrt. destruct (Number_isFinite (prop p "readingTime")) eqn:E.
    + destruct (isFinite_number _ E) as [x Hx]. exists x. rewrite <- Hx. done.
    + eexists. split_and!; reflexivity.
  - repeat constructor; try done; intros H; by apply js_or_text.
Qed.

Lemma C3_witness :
  let now := "2024-05-01T10:00:00.000Z" in
  let r := stored_record odd_counts_page now 1 in
  r !! "id" = Some (JNumber (number_of_Z 1)) /\
  (exists x, r !! "wordCount" = Some (JNumber x) /\ Number_isFinite (JNumber x) = true /\
     JNumber x = JNumber (number_of_Z (-5))).
Proof.
  intros now r.
  destruct (C3_stored_record_fields ready_world
              (addClippedPage odd_counts_page now None ready_world).2
              (default clippedPages_schema (current_store ready_world))
              odd_counts_page now None 1)
    as (_ & _ & Hid & Hwc & _).
  - vm_compute. split_and!; reflexivity.
  - vm_compute. reflexivity.
  - split; [exact Hid | exact Hwc].
Defined.

(** C7: with the adapter ready and a key left, add({}) resolves and listAll
    then reports the record with title "Untitled", empty url, content and
    favicon, the time of the call as timestamp, wordCount 0 and readingTime
    1; add({wordCount: NaN, readingTime: "x"}) resolves and stores the same
    record. The two numbers stored are the doubles 0 and 1. *)
Theorem C7_defaults (w : World) (s : ObjectStore) (now : string) :
  ready w s ->
  store_keygen s <= MAX_KEY ->
  let k := store_keygen s in
  (exists w1 rs,
     addClippedPage (obj []) now None w = (Resolved k, w1) /\
     getAllClippedPages None w1 = (Resolved rs, w1) /\
     default_record now k ∈ rs) /\
  (exists w1 rs,
     addClippedPage (obj [("wordCount", JNumber S754_nan); ("readingTime", JString "x")])
       now None w = (Resolved k, w1) /\
     getAllClippedPages None w1 = (Resolved rs, w1) /\
     default_record now k ∈ rs) /\
  integer_of (S754_zero false) = Some 0 /\
  integer_of (S754_finite false 4503599627370496 (-52)) = Some 1.
Proof.
  intros Hready Hk k.
  assert (forall p, nullish p = false -> stored_record p now k = default_record now k ->
            exists w1 rs,
              addClippedPage p now None w = (Resolved k, w1) /\
              getAllClippedPages None w1 = (Resolved rs, w1) /\
              default_record now k ∈ rs) as Hadd.
  { intros p Hp Hrec. destruct (add_succeeds w s p now Hready Hp Hk) as [w1 Hw1].
    destruct (add_stored _ _ _ _ _ _ _ Hready Hw1) as (_ & _ & _ & _ & Hget & Hin).
    exists w1. eexists. split_and!; [done | done |]. fold k in Hin. by rewrite <- Hrec. }
  split_and!; [by apply Hadd | by apply Hadd | done | done].
Qed.

Lemma C7_witness :
  let now := "2024-05-01T10:00:03.000Z" in
  (exists w1 rs,
     addClippedPage (obj []) now None sample_world = (Resolved 4, w1) /\
     getAllClippedPages None w1 = (Resolved rs, w1) /\
     default_record now 4 ∈ rs) /\
  (exists w1 rs,
     addClippedPage (obj [("wordCount", JNumber S754_nan); ("readingTime", JString "x")])
       now None sample_world = (Resolved 4, w1) /\
     getAllClippedPages None w1 = (Resolved rs, w1) /\
     default_record now 4 ∈ rs).
Proof.
  intros now.
  destruct (C7_defaults sample_world sample_store now) as (H1 & H2 & _).
  - vm_compute. split_and!; reflexivity.
  - vm_compute. discriminate.
  - split; [exact H1 | exact H2].
Defined.

(** C9: in the record of an add that resolved, a text field whose input
    value is falsy, absent or not, holds the field's default: "Untitled"
    for title, the empty text for url, content and favicon, the time of the
    call for timestamp. The empty string and the number 0 are among the
    falsy values. *)
Theorem C9_falsy_text_replaced (w w1 : World) (s : ObjectStore) (p : JsValue) (now : string)
    (f : option JsError) (k : Z) :
  ready w s ->
  addClippedPage p now f w = (Resolved k, w1) ->
  let r := stored_record p now k in
  (exists rs, getAllClippedPages None w1 = (Resolved rs, w1) /\ r ∈ rs) /\
  Forall (fun '(name, dflt) =>
            truthy (prop p name) = false -> r !! name = Some (JString dflt))
    [("title", "Untitled"); ("url", ""); ("content", ""); ("timestamp", now); ("favicon", "")] /\
  Forall (fun v => truthy v = false) falsy_values /\
  (forall v, truthy v = false -> v ∈ falsy_values \/ exists s, v = JNumber (S754_zero s)).
Proof.
  intros Hready Hadd r.
  destruct (add_stored _ _ _ _ _ _ _ Hready Hadd) as (_ & _ & _ & _ & Hget & Hin).
  split_and!.
  - eauto.
  - repeat constructor; intros H.
    all: match goal with
         | H : truthy (prop _ ?name) = false |- _ !! ?name = Some ?d =>
             transitivity (Some (js_or (prop p name) d));
             [reflexivity | unfold js_or; by rewrite H]
         end.
  - repeat constructor.
  - intros v Hv. unfold falsy_values. destruct v as [| |b|x|n|t|o]; simpl in Hv.
    + left. repeat constructor.
    + left. repeat constructor.
    + destruct b; [done|]. left. repeat constructor.
    + destruct x; try done; [right; eauto | left; repeat constructor].
    + apply negb_false_iff, Z.eqb_eq in Hv as ->. left. repeat constructor.
    + apply negb_false_iff, String.eqb_eq in Hv as ->. left. repeat constructor.
    + done.
Qed.

Lemma C9_witness :
  let now := "2024-05-01T10:00:03.000Z" in
  Forall (fun '(name, dflt) =>
            truthy (prop falsy_text_page name) = false ->
            stored_record falsy_text_page now 4 !! name = Some (JString dflt))
    [("title", "Untitled"); ("url", ""); ("content", ""); ("timestamp", now); ("favicon", "")] /\
  truthy (prop empty_title_page "title") = false /\
  truthy (prop falsy_text_page "title") = false.
Proof.
  intros now.
  destruct (C9_falsy_text_replaced sample_world
              (addClippedPage falsy_text_page now None sample_world).2
              sample_store falsy_text_page now None 4)
    as (_ & H & _).
  - vm_compute. split_and!; reflexivity.
  - vm_compute. reflexivity.
  - split_and!; [exact H | reflexivity | reflexivity].
Defined.

(** C10: an add that resolved with id k changed the store by one record,
    put under the key k. The properties of that record are exactly title,
    url, content, timestamp, favicon, wordCount, readingTime and id; its id
    is the number k whatever the input carried as id; no other property
    name leads to a value; and two inputs that agree on the seven fields
    give the same record, whatever else they carry. *)
Theorem C10_exactly_eight_fields (w w1 : World) (s : ObjectStore) (p : JsValue)
    (now : string) (f : option JsError) (k : Z) :
  ready w s ->
  addClippedPage p now f w = (Resolved k, w1) ->
  let r := stored_record p now k in
  (exists s1, current_store w1 = Some s1 /\
              store_records s1 = insert_record k r (store_records s)) /\
  (exists rs, getAllClippedPages None w1 = (Resolved rs, w1) /\ r ∈ rs) /\
  dom r = list_to_set ("id" :: record_fields) /\
  r !! "id" = Some (JNumber (number_of_Z k)) /\
  (forall name, name ∉ "id" :: record_fields -> r !! name = None) /\
  (forall p', Forall (fun name => prop p' name = prop p name) record_fields ->
              stored_record p' now k = r).
Proof.
  intros Hready Hadd r.
  destruct (add_stored _ _ _ _ _ _ _ Hready Hadd) as (_ & _ & _ & Hready1 & Hget & Hin).
  assert (dom r = list_to_set ("id" :: record_fields)) as Hdom by reflexivity.
  split_and!.
  - destruct Hready1 as (Hcur & _). eauto.
  - eauto.
  - exact Hdom.
  - reflexivity.
  - intros name Hname. apply not_elem_of_dom. rewrite Hdom.
    by rewrite elem_of_list_to_set.
  - intros p' Hp'. unfold record_fields in Hp'. rewrite !Forall_cons in Hp'.
    destruct Hp' as (H1 & H2 & H3 & H4 & H5 & H6 & H7 & _).
    unfold r, stored_record, normalized. by rewrite H1, H2, H3, H4, H5, H6, H7.
Qed.

Lemma C10_witness :
  let now := "2024-05-01T10:00:03.000Z" in
  let r := stored_record cluttered_page now 4 in
  dom r = list_to_set ("id" :: record_fields) /\
  r !! "id" = Some (JNumber (number_of_Z 4)) /\
  r !! "extra" = None /\
  r !! "tags" = None.
Proof.
  intros now r.
  destruct (C10_exactly_eight_fields sample_world
              (addClippedPage cluttered_page now None sample_world).2
              sample_store cluttered_page now None 4)
    as (_ & _ & Hdom & Hid & Hnone & _).
  - vm_compute. split_and!; reflexivity.
  - vm_compute. reflexivity.
  - split_and!; [exact Hdom | exact Hid | |].
    + apply Hnone. unfold record_fields. rewrite !elem_of_cons, elem_of_nil.
      intros H. repeat (destruct H as [H|H]; [discriminate|]). exact H.
    + apply Hnone. unfold record_fields. rewrite !elem_of_cons, elem_of_nil.
      intros H. repeat (destruct H as [H|H]; [discriminate|]). exact H.
Defined.

(** * Further properties of the adapter *)

(** ** The world after a call, whatever the world before *)

Lemma IDBObjectStore_add_world f h v w o w' :
  IDBObjectStore_add f h v w = (o, w') ->
  match o with
  | Rejected _ => w' = w
  | Resolved _ => exists s', w' = update_store (os_db h) (os_name h) s' w
  end.
Proof.
  unfold IDBObjectStore_add. intros H.
  repeat case_match; simplify_eq; eauto.
Qed.

Lemma add_world p now f w o w' :
  addClippedPage p now f w = (o, w') ->
  match o with
  | Rejected e => w' = w \/ w' = push_console (error_entry "Failed to clip page:" e) w
  | Resolved _ =>
      exists c s', db w = Some c /\
        w' = push_console (log_entry [LText "Page clipped successfully"])
               (update_store (conn_name c) STORE_NAME s' w)
  end.
Proof.
  intros H. destruct (db w) as [c|] eqn:Hdb.
  - destruct (lookup_store (conn_name c) STORE_NAME w) as [s|] eqn:Hs.
    + revert H. unfold addClippedPage. js_unfold. rewrite Hdb.
      destruct (nullish p) eqn:Hp.
      { destruct p; try done; simpl; intros [= <- <-]; by left. }
      assert (forall name, get_property p name w = (Resolved (prop p name), w)) as Hget.
      { intros name. by destruct p. }
      rewrite !Hget. rewrite (transaction_ok _ _ _ _ Hs).
      unfold objectStore. simpl. js_unfold.
      destruct (IDBObjectStore_add f _ _ w) as [[k|e] w0] eqn:Ha;
        apply IDBObjectStore_add_world in Ha; simpl in Ha.
      * destruct Ha as [s' ->]. intros [= <- <-]. eauto.
      * subst w0. intros [= <- <-]. by right.
    + rewrite (add_no_store _ _ Hdb Hs) in H.
      destruct (nullish p); injection H as <- <-; [by left | by right].
  - rewrite add_not_initialized in H by done. injection H as <- <-. by left.
Qed.

Lemma getAll_world f w o w' :
  getAllClippedPages f w = (o, w') ->
  match o with
  | Rejected e => w' = w \/ w' = push_console (error_entry "Failed to get clipped pages:" e) w
  | Resolved _ => w' = w
  end.
Proof.
  intros H. destruct (db w) as [c|] eqn:Hdb.
  - destruct (lookup_store (conn_name c) STORE_NAME w) as [s|] eqn:Hs.
    + rewrite (getAll_eq _ _ _ Hdb Hs) in H.
      destruct f; injection H as <- <-; [by right | done].
    + rewrite (getAll_no_store _ _ Hdb Hs) in H. injection H as <- <-. by right.
  - rewrite getAll_not_initialized in H by done. injection H as <- <-. by left.
Qed.

Lemma delete_world id f w o w' :
  deleteClippedPage id f w = (o, w') ->
  match o with
  | Rejected e => w' = w \/ w' = push_console (error_entry "Failed to delete page:" e) w
  | Resolved _ =>
      exists c s', db w = Some c /\
        w' = push_console
               (log_entry [LText "Page with ID "; LValue id; LText " deleted successfully"])
               (update_store (conn_name c) STORE_NAME s' w)
  end.
Proof.
  intros H. destruct (db w) as [c|] eqn:Hdb.
  - destruct (lookup_store (conn_name c) STORE_NAME w) as [s|] eqn:Hs.
    + rewrite (delete_eq _ _ _ Hdb Hs) in H.
      destruct (convert_value_to_key id); [destruct f|]; injection H as <- <-; eauto.
    + rewrite (delete_no_store _ _ Hdb Hs) in H. injection H as <- <-. by right.
  - rewrite delete_not_initialized in H by done. injection H as <- <-. by left.
Qed.

Lemma clearAll_world f w o w' :
  clearAllClippedPages f w = (o, w') ->
  match o with
  | Rejected e => w' = w \/ w' = push_console (error_entry "Failed to clear pages:" e) w
  | Resolved _ =>
      exists c s', db w = Some c /\
        w' = push_console (log_entry [LText "All pages cleared successfully"])
               (update_store (conn_name c) STORE_NAME s' w)
  end.
Proof.
  intros H. destruct (db w) as [c|] eqn:Hdb.
  - destruct (lookup_store (conn_name c) STORE_NAME w) as [s|] eqn:Hs.
    + rewrite (clearAll_eq _ _ _ Hdb Hs) in H.
      destruct f; injection H as <- <-; eauto.
    + rewrite (clearAll_no_store _ _ Hdb Hs) in H. injection H as <- <-. by right.
  - rewrite clearAll_not_initialized in H by done. injection H as <- <-. by left.
Qed.

Lemma initDB_world f w o w' :
  initDB f w = (o, w') ->
  match o with
  | Rejected e => w' = push_console (error_entry "Database initialization failed:" e) w
  | Resolved _ =>
      db w' = Some connection /\
      forall dbname name,
        dbname <> DB_NAME \/ name <> STORE_NAME ->
        lookup_store dbname name w' = lookup_store dbname name w
  end.
Proof.
  rewrite initDB_eq.
  destruct (indexedDB_open f DB_NAME DB_VERSION onupgradeneeded w) as [[c|e] w0] eqn:Hopen.
  - intros [= <- <-]. revert Hopen. rewrite open_eq. destruct f; [done|]. simpl.
    destruct (DB_VERSION <? idb_version (stored_database w)); [done|].
    assert (forall m l,
              (forall name, name <> STORE_NAME ->
                            m !! name = idb_stores (stored_database w) !! name) ->
              forall dbname name,
                dbname <> DB_NAME \/ name <> STORE_NAME ->
                lookup_store dbname name
                  {| db := Some connection;
                     indexedDB := <[DB_NAME := {| idb_version := DB_VERSION; idb_stores := m |}]>
                                    (indexedDB w);
                     console := l |} = lookup_store dbname name w) as Hother.
    { intros m l Hm dbname name Hne.
      destruct (decide (dbname = DB_NAME)) as [->|Hn].
      - destruct Hne as [|Hne]; [done|]. rewrite (lookup_store_stored_database _ w).
        unfold lookup_store. simpl. rewrite lookup_insert_eq. simpl. by apply Hm.
      - unfold lookup_store. simpl. by rewrite lookup_insert_ne. }
    destruct (idb_version (stored_database w) <? 1).
    + destruct (idb_stores (stored_database w) !! STORE_NAME); [done|].
      intros [= <- <-]. split; [done|]. simpl. apply Hother.
      intros name Hname. by rewrite lookup_insert_ne.
    + destruct (idb_version (stored_database w) <? DB_VERSION); intros [= <- <-].
      * split; [done|]. simpl. by apply Hother.
      * done.
  - intros [= <- <-]. by rewrite (open_rejected _ _ _ _ Hopen).
Qed.

Lemma outcome_of_world call w : (outcome_of call w).2 = (exec call w).1.
Proof.
  destruct call; simpl; try done.
  - by destruct (initDB fault w) as [[?|?] ?].
  - by destruct (addClippedPage pageData now fault w) as [[?|?] ?].
  - by destruct (getAllClippedPages fault w) as [[?|?] ?].
  - by destruct (deleteClippedPage id fault w) as [[?|?] ?].
  - by destruct (clearAllClippedPages fault w) as [[?|?] ?].
Qed.

(** ** No call that fails changes anything but the console *)

(** X1: a call of any of the five operations that rejects with an error
    leaves the world as it was, or as it was with one more console line:
    the error line of the call's catch, carrying the error that is
    re-raised. The connection and the engine's state are never changed by
    a call that fails. *)
Theorem rejected_call_changes_nothing (call : Call) (w w' : World) (e : JsError) :
  outcome_of call w = (Some e, w') ->
  (w' = w \/ w' = push_console (error_entry (catch_message call) e) w) /\
  db w' = db w /\
  indexedDB w' = indexedDB w.
Proof.
  intros H.
  assert (w' = w \/ w' = push_console (error_entry (catch_message call) e) w) as Hw.
  { destruct call as [f|p now f|f|id f|f|]; simpl in H.
    - destruct (initDB f w) as [[u|e0] w0] eqn:E; [done|]. injection H as <- <-.
      right. exact (initDB_world _ _ _ _ E).
    - destruct (addClippedPage p now f w) as [[u|e0] w0] eqn:E; [done|].
      injection H as <- <-. exact (add_world _ _ _ _ _ _ E).
    - destruct (getAllClippedPages f w) as [[u|e0] w0] eqn:E; [done|].
      injection H as <- <-. exact (getAll_world _ _ _ _ E).
    - destruct (deleteClippedPage id f w) as [[u|e0] w0] eqn:E; [done|].
      injection H as <- <-. exact (delete_world _ _ _ _ _ E).
    - destruct (clearAllClippedPages f w) as [[u|e0] w0] eqn:E; [done|].
      injection H as <- <-. exact (clearAll_world _ _ _ _ E).
    - done. }
  split; [exact Hw|]. by destruct Hw as [->| ->].
Qed.

Lemma rejected_call_changes_nothing_witness :
  let call := CallAddPage (obj []) "2024-05-01T10:00:03.000Z"
                (Some (DOMException "QuotaExceededError")) in
  db (outcome_of call sample_world).2 = db sample_world /\
  indexedDB (outcome_of call sample_world).2 = indexedDB sample_world.
Proof.
  intros call.
  destruct (rejected_call_changes_nothing call sample_world (outcome_of call sample_world).2
              (DOMException "QuotaExceededError")) as (_ & Hd & He).
  - vm_compute. reflexivity.
  - split; [exact Hd | exact He].
Defined.

(** ** What the four data calls never touch *)

(** X2: listAll only reads. Whatever its outcome, the connection and the
    engine's state are as before; when it resolves, the console is as
    before too, and the list is the store's records in key order. *)
Theorem listAll_reads_only (f : option JsError) (w : World) :
  db (getAllClippedPages f w).2 = db w /\
  indexedDB (getAllClippedPages f w).2 = indexedDB w /\
  (forall rs w', getAllClippedPages f w = (Resolved rs, w') ->
     w' = w /\ exists s, current_store w = Some s /\ rs = map snd (store_records s)).
Proof.
  destruct (getAllClippedPages f w) as [[rs|e] w0] eqn:E.
  - pose proof (getAll_world _ _ _ _ E) as ->. split_and!; [done..|].
    intros rs' w' [= <- <-]. split; [done|].
    destruct (getAll_resolved _ _ _ _ E) as (c & s & Hdb & Hs).
    exists s. rewrite (getAll_eq _ _ _ Hdb Hs) in E. destruct f; [done|].
    injection E as <-. unfold current_store. rewrite Hdb. done.
  - pose proof (getAll_world _ _ _ _ E) as [->| ->]; by split_and!.
Qed.

(** X3: add, listAll, deleteById and clearAll never assign the connection:
    after each of them, whatever its outcome, [db] is what it was. Only
    [initDB] and a load of the script set it. *)
Theorem data_calls_keep_connection (w : World) (p id : JsValue) (now : string)
    (f : option JsError) :
  db (addClippedPage p now f w).2 = db w /\
  db (getAllClippedPages f w).2 = db w /\
  db (deleteClippedPage id f w).2 = db w /\
  db (clearAllClippedPages f w).2 = db w.
Proof.
  split_and!.
  - destruct (addClippedPage p now f w) as [[k|e] w0] eqn:E;
      pose proof (add_world _ _ _ _ _ _ E) as H; simpl in *.
    + destruct H as (c & s' & _ & ->). simpl. apply db_update_store.
    + by destruct H as [->| ->].
  - destruct (getAllClippedPages f w) as [[k|e] w0] eqn:E;
      pose proof (getAll_world _ _ _ _ E) as H; simpl in *.
    + by subst.
    + by destruct H as [->| ->].
  - destruct (deleteClippedPage id f w) as [[k|e] w0] eqn:E;
      pose proof (delete_world _ _ _ _ _ E) as H; simpl in *.
    + destruct H as (c & s' & _ & ->). simpl. apply db_update_store.
    + by destruct H as [->| ->].
  - destruct (clearAllClippedPages f w) as [[k|e] w0] eqn:E;
      pose proof (clearAll_world _ _ _ _ E) as H; simpl in *.
    + destruct H as (c & s' & _ & ->). simpl. apply db_update_store.
    + by destruct H as [->| ->].
Qed.

(** X4: no call touches a store other than clippedPages, or a database
    other than the adapter's and the one behind the connection held: the
    lookup of any other store gives after the call what it gave before. *)
Theorem other_stores_untouched (call : Call) (w : World) (dbname name : string) :
  name <> STORE_NAME \/
    (dbname <> DB_NAME /\ forall c, db w = Some c -> dbname <> conn_name c) ->
  lookup_store dbname name (exec call w).1 = lookup_store dbname name w.
Proof.
  intros Hne.
  assert (forall c s' l,
            db w = Some c ->
            lookup_store dbname name (push_console l (update_store (conn_name c) STORE_NAME s' w))
              = lookup_store dbname name w) as Hupd.
  { intros c s' l Hdb.
    change (lookup_store dbname name (update_store (conn_name c) STORE_NAME s' w)
            = lookup_store dbname name w).
    rewrite lookup_update_store. rewrite decide_False; [done|].
    intros (<- & <- & _). destruct Hne as [|[_ Hne]]; [done|]. by apply (Hne c). }
  destruct call as [f|p now f|f|id f|f|]; simpl.
  - destruct (initDB f w) as [[u|e] w0] eqn:E; pose proof (initDB_world _ _ _ _ E) as H;
      simpl in *.
    + destruct H as [_ H]. apply H. tauto.
    + by subst.
  - destruct (addClippedPage p now f w) as [[k|e] w0] eqn:E;
      pose proof (add_world _ _ _ _ _ _ E) as H; simpl in *.
    + destruct H as (c & s' & Hdb & ->). by apply Hupd.
    + by destruct H as [->| ->].
  - destruct (getAllClippedPages f w) as [[k|e] w0] eqn:E;
      pose proof (getAll_world _ _ _ _ E) as H; simpl in *.
    + by subst.
    + by destruct H as [->| ->].
  - destruct (deleteClippedPage id f w) as [[k|e] w0] eqn:E;
      pose proof (delete_world _ _ _ _ _ E) as H; simpl in *.
    + destruct H as (c & s' & Hdb & ->). by apply Hupd.
    + by destruct H as [->| ->].
  - destruct (clearAllClippedPages f w) as [[k|e] w0] eqn:E;
      pose proof (clearAll_world _ _ _ _ E) as H; simpl in *.
    + destruct H as (c & s' & Hdb & ->). by apply Hupd.
    + by destruct H as [->| ->].
  - done.
Qed.

(** ** The worlds of a profile *)

Lemma insert_record_append k v l :
  Forall (fun r => r.1 < k) l -> insert_record k v l = l ++ [(k, v)].
Proof.
  induction 1 as [|r l Hr Hl IH]; simpl; [done|].
  destruct (k <? r.1) eqn:E; [lia|]. by rewrite IH.
Qed.

Lemma sorted_keys_snoc (l : list (Z * gmap string JsValue)) k v :
  StronglySorted Z.lt (map fst l) ->
  Forall (fun r => r.1 < k) l ->
  StronglySorted Z.lt (map fst (l ++ [(k, v)])).
Proof.
  induction l as [|r l IH]; simpl; intros Hs Hk.
  - repeat constructor.
  - apply StronglySorted_inv in Hs as [Hs Hr]. apply Forall_cons in Hk as [Hrk Hk].
    constructor; [by apply IH|].
    rewrite map_app, Forall_app. split; [done|]. simpl. by repeat constructor.
Qed.

Lemma sorted_keys_filter (f : Z * gmap string JsValue -> bool) l :
  StronglySorted Z.lt (map fst l) -> StronglySorted Z.lt (map fst (List.filter f l)).
Proof.
  induction l as [|r l IH]; simpl; intros Hs; [done|].
  apply StronglySorted_inv in Hs as [Hs Hr].
  destruct (f r); simpl; [|by apply IH].
  constructor; [by apply IH|].
  rewrite Forall_forall in *. intros k Hk. apply Hr.
  rewrite list_elem_of_In, in_map_iff in *. destruct Hk as (r' & <- & Hin).
  exists r'. split; [done|]. by apply List.filter_In in Hin as [? _].
Qed.

Lemma stored_record_ok p now k : 1 <= k -> record_ok (k, stored_record p now k).
Proof. intros Hk. split_and!; [done | reflexivity | reflexivity]. Qed.

Lemma profile_inv_console l w : profile_inv w -> profile_inv (push_console l w).
Proof. intros H. exact H. Qed.

Lemma profile_database w c :
  profile_inv w -> db w = Some c ->
  c = connection /\
  exists d s, indexedDB w !! DB_NAME = Some d /\ idb_version d = DB_VERSION /\
              lookup_store DB_NAME STORE_NAME w = Some s /\
              store_inv s /\ store_shape s.
Proof.
  intros ([Hc Hs] & Hd & Hconn) Hdb. split; [by apply Hc|].
  destruct (Hconn _ Hdb) as [d Hd']. destruct (Hd _ Hd') as (Hv & s & Hst & Hshape).
  exists d, s. assert (lookup_store DB_NAME STORE_NAME w = Some s) as Hl.
  { unfold lookup_store. rewrite Hd'. done. }
  split_and!; try done. by apply Hs.
Qed.

Lemma profile_inv_records w s l g entry :
  profile_inv w ->
  lookup_store DB_NAME STORE_NAME w = Some s ->
  Forall (fun r => r.1 < g) l ->
  store_keygen s <= g <= MAX_KEY + 1 ->
  1 <= g ->
  StronglySorted Z.lt (map fst l) ->
  Forall record_ok l ->
  profile_inv (push_console entry (update_store DB_NAME STORE_NAME (set_records l g s) w)).
Proof.
  intros (Hinv & Hd & Hconn) Hs Hlt Hg Hg1 Hsorted Hok.
  assert (exists d, indexedDB w !! DB_NAME = Some d /\ idb_stores d !! STORE_NAME = Some s)
    as (d & Hdb & Hst).
  { unfold lookup_store in Hs. destruct (indexedDB w !! DB_NAME) as [d|]; [|done]. eauto. }
  split_and!.
  - assert (step_ok w
              (push_console entry (update_store DB_NAME STORE_NAME (set_records l g s) w)) None)
      as [H _]; [|exact H].
    apply step_ok_records; [done..|lia|done].
  - intros d'. simpl. unfold update_store. rewrite Hdb. simpl. rewrite lookup_insert_eq.
    intros [= <-]. simpl. split; [by apply (Hd d)|].
    exists (set_records l g s). rewrite lookup_insert_eq. split; [done|].
    split_and!; simpl; [lia|lia|done|done].
  - intros c. simpl. rewrite db_update_store. intros Hc.
    unfold update_store. rewrite Hdb. simpl. rewrite lookup_insert_eq. eauto.
Qed.

Lemma pristine_profile : profile_inv pristine.
Proof.
  split_and!; [exact pristine_inv | |done].
  intros d. simpl. by rewrite lookup_empty.
Qed.

Lemma exec_profile call w : profile_inv w -> profile_inv (exec call w).1.
Proof.
  intros Hp.
  destruct call as [f|p now f|f|id f|f|]; simpl.
  - rewrite initDB_eq, open_eq. destruct f; [exact Hp|]. simpl.
    destruct (indexedDB w !! DB_NAME) as [d|] eqn:Hdb; pose proof Hp as (Hinv & Hd & Hconn).
    + assert (stored_database w = d) as -> by (unfold stored_database; by rewrite Hdb).
      destruct (Hd d Hdb) as (Hv & s & Hs & Hshape). rewrite Hv. simpl.
      split_and!.
      * destruct Hinv as [_ Hst]. split; [|exact Hst]. simpl. by intros c [= <-].
      * exact Hd.
      * simpl. intros _ _. rewrite Hdb. eauto.
    + assert (stored_database w = new_database) as ->
        by (unfold stored_database; by rewrite Hdb).
      simpl. rewrite lookup_empty. simpl.
      assert (step_ok w (initDB None w).2 None) as [Hinv' _] by (by apply exec_init_ok).
      rewrite initDB_eq, open_eq in Hinv'. simpl in Hinv'.
      assert (stored_database w = new_database) as Hnew
        by (unfold stored_database; by rewrite Hdb).
      rewrite Hnew in Hinv'. simpl in Hinv'. rewrite lookup_empty in Hinv'. simpl in Hinv'.
      split_and!.
      * exact Hinv'.
      * intros d. simpl. rewrite lookup_insert_eq. intros [= <-]. simpl. split; [done|].
        exists clippedPages_schema. rewrite lookup_insert_eq. split; [done|].
        split_and!; simpl; [lia | unfold MAX_KEY; lia | constructor | constructor].
      * intros c _. simpl. rewrite lookup_insert_eq. eauto.
  - destruct (db w) as [c|] eqn:Hdb;
      [|rewrite add_not_initialized by done; exact Hp].
    destruct (profile_database _ _ Hp Hdb)
      as (-> & d & s & Hd' & Hv & Hs & (Hkp & Hai & Hix & Hall) & (Hg & Hsorted & Hok)).
    rewrite (add_eq w connection s Hdb Hs Hkp Hai).
    destruct (nullish p); [exact Hp|]. destruct f; [exact Hp|]. simpl.
    destruct (MAX_KEY <? store_keygen s) eqn:E; [exact Hp|]. simpl.
    rewrite (insert_record_append _ _ _ Hall).
    apply profile_inv_records; try done; try lia.
    + rewrite Forall_app. split.
      * eapply Forall_impl; [exact Hall|]. simpl. intros; lia.
      * repeat constructor. simpl. lia.
    + by apply sorted_keys_snoc.
    + rewrite Forall_app. split; [done|]. repeat constructor.
      apply stored_record_ok. lia.
  - destruct (getAllClippedPages f w) as [[rs|e] w0] eqn:E;
      pose proof (getAll_world _ _ _ _ E) as H; simpl in *.
    + by subst.
    + by destruct H as [->| ->].
  - destruct (db w) as [c|] eqn:Hdb;
      [|rewrite delete_not_initialized by done; exact Hp].
    destruct (profile_database _ _ Hp Hdb)
      as (-> & d & s & Hd' & Hv & Hs & (Hkp & Hai & Hix & Hall) & (Hg & Hsorted & Hok)).
    rewrite (delete_eq w connection s Hdb Hs).
    destruct (convert_value_to_key id); [|exact Hp]. destruct f; [exact Hp|]. simpl.
    apply profile_inv_records; try done; try lia.
    + by apply filter_Forall.
    + by apply sorted_keys_filter.
    + by apply filter_Forall.
  - destruct (db w) as [c|] eqn:Hdb;
      [|rewrite clearAll_not_initialized by done; exact Hp].
    destruct (profile_database _ _ Hp Hdb)
      as (-> & d & s & Hd' & Hv & Hs & (Hkp & Hai & Hix & Hall) & (Hg & Hsorted & Hok)).
    rewrite (clearAll_eq w connection s Hdb Hs).
    destruct f; [exact Hp|]. simpl.
    apply profile_inv_records; try done; try lia; constructor.
  - destruct Hp as (Hinv & Hd & Hconn). split_and!; [|exact Hd|done].
    destruct Hinv as [_ Hst]. split; [done | exact Hst].
Qed.

Lemma run_profile calls : forall w, profile_inv w -> profile_inv (run calls w).1.
Proof.
  induction calls as [|call calls IH]; intros w Hp; simpl; [done|].
  pose proof (exec_profile call w Hp) as Hp1.
  destruct (exec call w) as [w1 r]. simpl in Hp1.
  specialize (IH w1 Hp1). by destruct (run calls w1).
Qed.

(** ** What add reads of its input *)

Lemma get_property_prop p name w :
  nullish p = false -> get_property p name w = (Resolved (prop p name), w).
Proof. by destruct p. Qed.

(** X5: with a connection held, add(undefined) and add(null) reject with
    the TypeError of the first property read. The read comes before the
    try, so nothing is logged and no transaction is opened: the world is
    left exactly as it was. *)
Theorem add_nullish_throws (w : World) (c : IDBDatabase) (p : JsValue) (now : string)
    (f : option JsError) :
  db w = Some c ->
  nullish p = true ->
  addClippedPage p now f w =
    (Rejected (TypeError "Cannot read properties of undefined or null"), w).
Proof.
  intros Hdb Hp. unfold addClippedPage. js_unfold. rewrite Hdb.
  by destruct p.
Qed.

(** X6: add depends on its input only through the seven fields it reads.
    Two inputs, neither undefined nor null, that give the same value for
    title, url, content, timestamp, favicon, wordCount and readingTime make
    add do the same thing in every world: same outcome, same world after.
    In particular a number, a string or a boolean passed as the page is
    treated as the empty object. *)
Theorem add_reads_seven_fields (p p' : JsValue) (now : string) (f : option JsError)
    (w : World) :
  nullish p = false ->
  nullish p' = false ->
  Forall (fun name => prop p name = prop p' name) record_fields ->
  addClippedPage p now f w = addClippedPage p' now f w.
Proof.
  intros Hp Hp' Hfields. unfold record_fields in Hfields. rewrite !Forall_cons in Hfields.
  destruct Hfields as (H1 & H2 & H3 & H4 & H5 & H6 & H7 & _).
  unfold addClippedPage. js_unfold. destruct (db w) as [c|]; [|done].
  rewrite !(get_property_prop p), !(get_property_prop p') by done.
  by rewrite H1, H2, H3, H4, H5, H6, H7.
Qed.

Lemma add_reads_seven_fields_witness :
  addClippedPage (JNumber (number_of_Z 5)) "2024-05-01T10:00:03.000Z" None ready_world
  = addClippedPage (obj [("colour", JString "red")]) "2024-05-01T10:00:03.000Z" None
      ready_world.
Proof.
  apply add_reads_seven_fields; [reflexivity | reflexivity |].
  repeat constructor.
Defined.

(** ** deleteById with an argument that is no key *)

(** X7: with the connection and the store there, deleteById with an id the
    engine does not take as a key (undefined, null, a boolean, NaN, a
    bigint, a plain object) rejects with the engine's DataError, whatever
    else the engine would have answered; the error is logged and the store
    is left as it was. *)
Theorem delete_invalid_key (w : World) (s : ObjectStore) (id : JsValue)
    (f : option JsError) :
  current_store w = Some s ->
  convert_value_to_key id = None ->
  deleteClippedPage id f w =
    (Rejected (DOMException "DataError"),
     push_console (error_entry "Failed to delete page:" (DOMException "DataError")) w) /\
  (id = JUndefined \/ id = JNull \/ (exists b, id = JBool b) \/ id = JNumber S754_nan \/
   (exists n, id = JBigInt n) \/ (exists o, id = JObject o)).
Proof.
  unfold current_store. intros Hcur Hkey.
  destruct (db w) as [c|] eqn:Hdb; [|done]. simpl in Hcur.
  split.
  - rewrite (delete_eq _ _ _ Hdb Hcur). by rewrite Hkey.
  - destruct id as [| |b|x|n|t|o]; simpl in Hkey; eauto 10.
    + destruct x; try done. eauto 10.
    + done.
Qed.

(** ** add and the list *)

(** X10: in a world of the adapter, an add that resolves puts its record
    at the end of what listAll reports and leaves the records before it as
    they were. *)
Theorem add_appends (w w1 : World) (p : JsValue) (now : string) (f : option JsError)
    (k : Z) :
  adapter_inv w ->
  addClippedPage p now f w = (Resolved k, w1) ->
  exists rs,
    getAllClippedPages None w = (Resolved rs, w) /\
    getAllClippedPages None w1 = (Resolved (rs ++ [stored_record p now k]), w1).
Proof.
  intros Hinv Hadd.
  destruct (add_resolved _ _ _ _ _ _ Hadd) as (c & s & Hdb & Hs).
  assert (current_store w = Some s) as Hcur by (unfold current_store; by rewrite Hdb).
  destruct (adapter_inv_ready _ _ Hinv Hcur) as (Hready & _ & _ & _ & Hall).
  destruct (add_stored _ _ _ _ _ _ _ Hready Hadd) as (-> & _ & _ & _ & Hget & _).
  exists (map snd (store_records s)). split.
  - by rewrite (getAll_eq _ _ _ Hdb Hs).
  - rewrite Hget. rewrite (insert_record_append _ _ _ Hall). by rewrite map_app.
Qed.

Lemma filter_drops_last (l : list (Z * gmap string JsValue)) k v :
  Forall (fun r => r.1 < k) l ->
  List.filter (fun r => negb (r.1 =? k)) (l ++ [(k, v)]) = l.
Proof.
  induction 1 as [|r l Hr Hl IH]; simpl.
  - by rewrite Z.eqb_refl.
  - destruct (r.1 =? k) eqn:E; [lia|]. simpl. by rewrite IH.
Qed.

(** X11: in a world of a profile, an add that resolved with id k followed
    by deleteById(k) gives back the list there was before the add; the key
    generator does not go back, so k is not handed out again. *)
Theorem add_then_delete_restores (w w1 : World) (p : JsValue) (now : string)
    (f : option JsError) (k : Z) :
  profile_inv w ->
  addClippedPage p now f w = (Resolved k, w1) ->
  exists w2 rs s2,
    deleteClippedPage (JNumber (number_of_Z k)) None w1 = (Resolved tt, w2) /\
    getAllClippedPages None w = (Resolved rs, w) /\
    getAllClippedPages None w2 = (Resolved rs, w2) /\
    current_store w2 = Some s2 /\
    store_keygen s2 = k + 1.
Proof.
  intros Hp Hadd.
  destruct (add_resolved _ _ _ _ _ _ Hadd) as (c & s & Hdb & Hs).
  destruct (profile_database _ _ Hp Hdb)
    as (-> & d & s' & _ & _ & Hs' & (Hkp & Hai & _ & Hall) & (Hg & _ & _)).
  simpl in Hs. rewrite Hs in Hs'. injection Hs' as <-.
  assert (ready w s) as Hready.
  { unfold ready, current_store. rewrite Hdb. by split_and!. }
  destruct (add_stored _ _ _ _ _ _ _ Hready Hadd) as (-> & -> & _ & Hready1 & _ & _).
  rewrite (add_eq w connection s Hdb Hs Hkp Hai) in Hadd.
  destruct (nullish p); [done|]. simpl in Hadd.
  destruct (MAX_KEY <? store_keygen s) eqn:E; [done|].
  set (k := store_keygen s) in *.
  destruct (generated_id_is_key k) as [Hconv Hmatch]; [lia|].
  destruct (ready_connection _ _ Hready1) as (c1 & Hdb1 & Hs1 & _).
  set (s1 := set_records _ (k + 1) s) in *.
  set (entry := log_entry [LText "Page with ID "; LValue (JNumber (number_of_Z k));
                           LText " deleted successfully"]).
  set (s2 := set_records (store_records s) (k + 1) s).
  assert (deleteClippedPage (JNumber (number_of_Z k)) None w1
          = (Resolved tt, push_console entry (update_store (conn_name c1) STORE_NAME s2 w1)))
    as Hdel.
  { assert (integer_of (number_of_Z k) = Some k) as Hint
      by (apply integer_of_number_of_Z; unfold MAX_KEY in *; lia).
    rewrite (delete_eq _ _ _ Hdb1 Hs1), Hconv.
    match goal with
    | |- (_, push_console _ (update_store _ _ ?X _)) = _ => assert (X = s2) as ->; [|done]
    end.
    unfold s2, s1, set_records. simpl. f_equal.
    rewrite (insert_record_append _ _ _ Hall).
    rewrite <- (filter_drops_last (store_records s) k (stored_record p now k) Hall) at 2.
    apply filter_ext. intros r. by rewrite Hint. }
  assert (db (push_console entry (update_store (conn_name c1) STORE_NAME s2 w1)) = Some c1)
    as Hdb2 by (simpl; by rewrite db_update_store).
  assert (lookup_store (conn_name c1) STORE_NAME
            (push_console entry (update_store (conn_name c1) STORE_NAME s2 w1)) = Some s2)
    as Hs2.
  { change (lookup_store (conn_name c1) STORE_NAME
              (update_store (conn_name c1) STORE_NAME s2 w1) = Some s2).
    by eapply lookup_update_store_eq. }
  eexists _, (map snd (store_records s)), s2. split_and!.
  - exact Hdel.
  - by rewrite (getAll_eq _ _ _ Hdb Hs).
  - by rewrite (getAll_eq _ _ _ Hdb2 Hs2).
  - unfold current_store. rewrite Hdb2. simpl. exact Hs2.
  - done.
Qed.

(** ** What listAll reports in the life of a profile *)

Lemma record_ok_id kr : record_ok kr -> kr.1 <= MAX_KEY -> record_id kr.2 = Some kr.1.
Proof.
  intros (Hk & _ & Hid) Hmax. unfold record_id. rewrite Hid.
  apply integer_of_number_of_Z. unfold MAX_KEY in Hmax. lia.
Qed.

(** X8: from a fresh profile (or any world of a profile), after any
    sequence of calls, a listAll that resolves reports records that each
    have exactly the eight properties, whose ids are integers from 1 to
    2^53, and that come in strictly increasing order of id; so no two of
    them share an id. *)
Theorem listAll_records_ordered (w0 w' : World) (calls : list Call) (f : option JsError)
    (rs : list (gmap string JsValue)) :
  profile_inv w0 ->
  getAllClippedPages f (run calls w0).1 = (Resolved rs, w') ->
  exists ks,
    map record_id rs = map Some ks /\
    StronglySorted Z.lt ks /\
    Forall (fun k => 1 <= k <= MAX_KEY) ks /\
    Forall (fun r => dom r = list_to_set ("id" :: record_fields)) rs.
Proof.
  intros Hp0 Hget. pose proof (run_profile calls w0 Hp0) as Hp.
  set (w := (run calls w0).1) in *.
  destruct (getAll_resolved _ _ _ _ Hget) as (c & s & Hdb & Hs).
  destruct (profile_database _ _ Hp Hdb)
    as (-> & d & s' & _ & _ & Hs' & (_ & _ & _ & Hall) & (Hg & Hsorted & Hok)).
  simpl in Hs. rewrite Hs in Hs'. injection Hs' as <-.
  rewrite (getAll_eq _ _ _ Hdb Hs) in Hget. destruct f; [done|]. injection Hget as <- _.
  exists (map fst (store_records s)).
  assert (Forall (fun r => r.1 <= MAX_KEY) (store_records s)) as Hmax.
  { eapply Forall_impl; [exact Hall|]. simpl. intros; lia. }
  rewrite Forall_forall in Hok. rewrite Forall_forall in Hmax.
  split_and!.
  - rewrite !map_map. apply map_ext_Forall.
    rewrite Forall_forall. intros r Hr. apply record_ok_id; auto.
  - exact Hsorted.
  - rewrite Forall_forall. intros k Hk.
    rewrite list_elem_of_In, in_map_iff in Hk. destruct Hk as (r & <- & Hr).
    rewrite <- list_elem_of_In in Hr. destruct (Hok r Hr) as (? & _). specialize (Hmax r Hr).
    simpl in *. lia.
  - rewrite Forall_forall. intros r Hr.
    rewrite list_elem_of_In, in_map_iff in Hr. destruct Hr as (kr & <- & Hkr).
    rewrite <- list_elem_of_In in Hkr. by destruct (Hok kr Hkr) as (_ & ? & _).
Qed.

Lemma listAll_records_ordered_witness :
  exists ks,
    map record_id (map snd (store_records sample_store)) = map Some ks /\
    StronglySorted Z.lt ks /\
    Forall (fun k => 1 <= k <= MAX_KEY) ks.
Proof.
  destruct (listAll_records_ordered pristine sample_world sample_calls None
              (map snd (store_records sample_store)) pristine_profile)
    as (ks & H1 & H2 & H3 & _).
  - reflexivity.
  - exists ks. split_and!; assumption.
Defined.

(** ** Once initialized, the calls go through *)

(** X9: in a world of a profile where the connection is set, the store is
    there, so with an engine that reports no error listAll and clearAll
    resolve, deleteById resolves for every id that is a key, and add
    resolves with the generator's next key for every input that is neither
    undefined nor null, as long as that key is at most 2^53. A further
    initialize resolves as well. *)
Theorem ready_calls_resolve (w : World) (c : IDBDatabase) :
  profile_inv w ->
  db w = Some c ->
  (exists rs, getAllClippedPages None w = (Resolved rs, w)) /\
  (exists w1, clearAllClippedPages None w = (Resolved tt, w1)) /\
  (forall id key, convert_value_to_key id = Some key ->
     exists w1, deleteClippedPage id None w = (Resolved tt, w1)) /\
  (forall p now, nullish p = false -> keygen_of w <= MAX_KEY ->
     exists w1, addClippedPage p now None w = (Resolved (keygen_of w), w1)) /\
  (exists w1, initDB None w = (Resolved tt, w1) /\ indexedDB w1 = indexedDB w).
Proof.
  intros Hp Hdb.
  destruct (profile_database _ _ Hp Hdb)
    as (-> & d & s & Hd & Hv & Hs & (Hkp & Hai & _ & _) & _).
  split_and!.
  - rewrite (getAll_eq _ _ _ Hdb Hs). eauto.
  - rewrite (clearAll_eq _ _ _ Hdb Hs). eauto.
  - intros id key Hkey. rewrite (delete_eq _ _ _ Hdb Hs), Hkey. eauto.
  - intros p now Hnn Hk. unfold keygen_of in *. simpl in Hs. rewrite Hs in *.
    apply add_succeeds; [|done..]. unfold ready, current_store. rewrite Hdb. by split_and!.
  - rewrite initDB_eq, open_eq. simpl.
    assert (stored_database w = d) as -> by (unfold stored_database; by rewrite Hd).
    rewrite Hv. simpl. eauto.
Qed.

Lemma sample_profile : profile_inv sample_world.
Proof. exact (run_profile sample_calls pristine pristine_profile). Qed.

Lemma ready_calls_resolve_witness :
  (exists rs, getAllClippedPages None sample_world = (Resolved rs, sample_world)) /\
  (exists w1, clearAllClippedPages None sample_world = (Resolved tt, w1)).
Proof.
  destruct (ready_calls_resolve sample_world connection sample_profile)
    as (H1 & H2 & _).
  - reflexivity.
  - split; [exact H1 | exact H2].
Defined.

(** ** A new session on the same profile *)

(** X12: the pages outlive the session. In a world of a profile where the
    database has been created, after the script is loaded anew an
    initialize with an engine that reports no error resolves, runs no
    upgrade, logs one line and leaves the engine's state untouched; listAll
    then reports the records that were there. *)
Theorem reload_keeps_pages (w : World) (s : ObjectStore) :
  profile_inv w ->
  lookup_store DB_NAME STORE_NAME w = Some s ->
  let w1 := (exec ScriptLoad w).1 in
  exists w2,
    initDB None w1 = (Resolved tt, w2) /\
    indexedDB w2 = indexedDB w /\
    console w2 = console w ++ [log_initialized] /\
    getAllClippedPages None w2 = (Resolved (map snd (store_records s)), w2).
Proof.
  intros (Hinv & Hd & Hconn) Hs w1.
  assert (exists d, indexedDB w !! DB_NAME = Some d) as [d Hdb].
  { unfold lookup_store in Hs. destruct (indexedDB w !! DB_NAME); [eauto | done]. }
  destruct (Hd d Hdb) as (Hv & _).
  assert (initDB None w1 =
            (Resolved tt, push_console log_initialized (set_db (Some connection) w1))) as Hinit.
  { rewrite initDB_eq, open_eq.
    assert (stored_database w1 = d) as -> by (unfold stored_database; simpl; by rewrite Hdb).
    simpl. rewrite Hv. done. }
  eexists. split_and!; [exact Hinit | done | done |].
  by rewrite (getAll_eq _ connection s).
Qed.

Lemma reload_keeps_pages_witness :
  exists w2,
    initDB None (exec ScriptLoad sample_world).1 = (Resolved tt, w2) /\
    indexedDB w2 = indexedDB sample_world /\
    getAllClippedPages None w2 = (Resolved (map snd (store_records sample_store)), w2).
Proof.
  destruct (reload_keeps_pages sample_world sample_store sample_profile)
    as (w2 & H1 & H2 & _ & H4).
  - reflexivity.
  - exists w2. split_and!; assumption.
Defined.

(** ** Witnesses *)

Lemma listAll_reads_only_witness :
  (getAllClippedPages None sample_world).2 = sample_world /\
  indexedDB (getAllClippedPages None sample_world).2 = indexedDB sample_world.
Proof.
  destruct (listAll_reads_only None sample_world) as (_ & He & Hres).
  split; [|exact He].
  apply (Hres (map snd (store_records sample_store))). reflexivity.
Defined.

Lemma other_stores_untouched_witness :
  lookup_store "OtherDB" STORE_NAME (exec (CallClearAllPages None) sample_world).1
  = lookup_store "OtherDB" STORE_NAME sample_world.
Proof.
  apply other_stores_untouched. right. split; [discriminate|].
  intros c Hc. vm_compute in Hc. injection Hc as <-. discriminate.
Defined.

Lemma add_nullish_throws_witness :
  addClippedPage JNull "2024-05-01T10:00:03.000Z" None sample_world =
    (Rejected (TypeError "Cannot read properties of undefined or null"), sample_world).
Proof.
  apply (add_nullish_throws sample_world connection); [vm_compute|]; reflexivity.
Defined.

Lemma delete_invalid_key_witness :
  deleteClippedPage JUndefined None sample_world =
    (Rejected (DOMException "DataError"),
     push_console (error_entry "Failed to delete page:" (DOMException "DataError"))
       sample_world).
Proof.
  destruct (delete_invalid_key sample_world sample_store JUndefined None) as [H _].
  - reflexivity.
  - reflexivity.
  - exact H.
Defined.

Lemma add_appends_witness :
  exists rs,
    getAllClippedPages None sample_world = (Resolved rs, sample_world) /\
    (getAllClippedPages None
       (addClippedPage cluttered_page "2024-05-01T10:00:03.000Z" None sample_world).2).1
    = Resolved (rs ++ [stored_record cluttered_page "2024-05-01T10:00:03.000Z" 4]).
Proof.
  destruct (add_appends sample_world
              (addClippedPage cluttered_page "2024-05-01T10:00:03.000Z" None sample_world).2
              cluttered_page "2024-05-01T10:00:03.000Z" None 4)
    as (rs & H1 & H2).
  - destruct sample_profile as [H _]. exact H.
  - reflexivity.
  - exists rs. split; [exact H1|]. by rewrite H2.
Defined.

Lemma add_then_delete_restores_witness :
  exists w2 rs,
    deleteClippedPage (JNumber (number_of_Z 4)) None
      (addClippedPage cluttered_page "2024-05-01T10:00:03.000Z" None sample_world).2
      = (Resolved tt, w2) /\
    getAllClippedPages None sample_world = (Resolved rs, sample_world) /\
    getAllClippedPages None w2 = (Resolved rs, w2).
Proof.
  destruct (add_then_delete_restores sample_world
              (addClippedPage cluttered_page "2024-05-01T10:00:03.000Z" None sample_world).2
              cluttered_page "2024-05-01T10:00:03.000Z" None 4 sample_profile)
    as (w2 & rs & s2 & H1 & H2 & H3 & _).
  - reflexivity.
  - exists w2, rs. split_and!; assumption.
Defined.

(** ** A database newer than the adapter *)

(** X13: when the stored database has a version above 2, as a later
    release would leave it, initialize rejects with the engine's
    VersionError, logs it, and leaves the connection and the database as
    they were; the upgrade handler does not run. *)
Theorem init_refuses_newer_database (w : World) :
  DB_VERSION < idb_version (stored_database w) ->
  initDB None w =
    (Rejected (DOMException "VersionError"),
     push_console
       (error_entry "Database initialization failed:" (DOMException "VersionError")) w).
Proof.
  intros Hv. rewrite initDB_eq, open_eq. simpl.
  destruct (DB_VERSION <? idb_version (stored_database w)) eqn:E; [done | lia].
Qed.

Lemma init_refuses_newer_database_witness :
  let w := set_indexedDB {[DB_NAME := {| idb_version := 3; idb_stores := ∅ |}]} pristine in
  (initDB None w).1 = Rejected (DOMException "VersionError") /\
  db (initDB None w).2 = None.
Proof.
  intros w. rewrite (init_refuses_newer_database w); [done|].
  reflexivity.
Defined.

(** ** clearAll and the ids *)

(** X14: clearAll empties the list but does not reset the ids. In a world
    of a profile, after a clearAll that resolved, an add resolves with the
    key the generator had before the clearAll, and listAll then reports
    that one record. *)
Theorem clear_then_add (w w1 : World) (f : option JsError) (p : JsValue) (now : string) :
  profile_inv w ->
  clearAllClippedPages f w = (Resolved tt, w1) ->
  nullish p = false ->
  keygen_of w <= MAX_KEY ->
  exists w2,
    addClippedPage p now None w1 = (Resolved (keygen_of w), w2) /\
    getAllClippedPages None w2 = (Resolved [stored_record p now (keygen_of w)], w2).
Proof.
  intros Hp Hclear Hnn Hk.
  destruct (clearAll_resolved _ _ _ _ Hclear) as (c & s & Hdb & Hs).
  destruct (profile_database _ _ Hp Hdb)
    as (-> & d & s' & _ & _ & Hs' & (Hkp & Hai & _ & _) & _).
  simpl in Hs. rewrite Hs in Hs'. injection Hs' as <-.
  unfold keygen_of in *. rewrite Hs in *.
  rewrite (clearAll_eq _ _ _ Hdb Hs) in Hclear. destruct f; [done|].
  injection Hclear as <-.
  set (s1 := set_records [] (store_keygen s) s).
  set (entry := log_entry [LText "All pages cleared successfully"]).
  assert (ready (push_console entry (update_store (conn_name connection) STORE_NAME s1 w)) s1)
    as Hready.
  { unfold ready, current_store. simpl. rewrite db_update_store, Hdb. simpl.
    split_and!; [|done..].
    change (lookup_store DB_NAME STORE_NAME (update_store DB_NAME STORE_NAME s1 w) = Some s1).
    by eapply lookup_update_store_eq. }
  destruct (add_succeeds _ _ p now Hready Hnn Hk) as [w2 Hadd].
  exists w2. split; [exact Hadd|].
  by destruct (add_stored _ _ _ _ _ _ _ Hready Hadd) as (_ & _ & _ & _ & Hget & _).
Qed.

Lemma clear_then_add_witness :
  exists w2,
    addClippedPage (obj []) "2024-05-01T10:00:09.000Z" None
      (clearAllClippedPages None sample_world).2 = (Resolved 4, w2) /\
    getAllClippedPages None w2 =
      (Resolved [stored_record (obj []) "2024-05-01T10:00:09.000Z" 4], w2).
Proof.
  destruct (clear_then_add sample_world (clearAllClippedPages None sample_world).2 None
              (obj []) "2024-05-01T10:00:09.000Z" sample_profile)
    as (w2 & H1 & H2).
  - reflexivity.
  - reflexivity.
  - vm_compute. discriminate.
  - exists w2. split; [exact H1 | exact H2].
Defined.

(** ** An add that fails *)

(** X15: an add that the engine fails takes no id. With the adapter ready,
    an add rejected with the engine's error e leaves the store so that the
    next add, once the engine reports no error, resolves with the very key
    the failed one would have had, and listAll then shows the records
    there were and the new one. *)
Theorem failed_add_takes_no_id (w : World) (s : ObjectStore) (p p' : JsValue)
    (now now' : string) (e : JsError) :
  ready w s ->
  nullish p = false ->
  nullish p' = false ->
  store_keygen s <= MAX_KEY ->
  exists w1 w2,
    addClippedPage p now (Some e) w = (Rejected e, w1) /\
    addClippedPage p' now' None w1 = (Resolved (store_keygen s), w2) /\
    getAllClippedPages None w2 =
      (Resolved (map snd (insert_record (store_keygen s)
                            (stored_record p' now' (store_keygen s)) (store_records s))),
       w2).
Proof.
  intros Hready Hp Hp' Hk.
  destruct (ready_connection _ _ Hready) as (c & Hdb & Hs & Hkp & Hai).
  set (w1 := push_console (error_entry "Failed to clip page:" e) w).
  assert (ready w1 s) as Hready1 by exact Hready.
  destruct (add_succeeds _ _ p' now' Hready1 Hp' Hk) as [w2 Hadd].
  exists w1, w2. split_and!.
  - rewrite (add_eq _ _ _ Hdb Hs Hkp Hai), Hp. done.
  - exact Hadd.
  - by destruct (add_stored _ _ _ _ _ _ _ Hready1 Hadd) as (_ & _ & _ & _ & Hget & _).
Qed.

Lemma failed_add_takes_no_id_witness :
  exists w1 w2,
    addClippedPage (obj []) "2024-05-01T10:00:03.000Z"
      (Some (DOMException "QuotaExceededError")) sample_world
      = (Rejected (DOMException "QuotaExceededError"), w1) /\
    addClippedPage cluttered_page "2024-05-01T10:00:04.000Z" None w1 = (Resolved 4, w2).
Proof.
  destruct (failed_add_takes_no_id sample_world sample_store (obj []) cluttered_page
              "2024-05-01T10:00:03.000Z" "2024-05-01T10:00:04.000Z"
              (DOMException "QuotaExceededError"))
    as (w1 & w2 & H1 & H2 & _).
  - split_and!; reflexivity.
  - reflexivity.
  - reflexivity.
  - vm_compute. discriminate.
  - exists w1, w2. split; [exact H1 | exact H2].
Defined.
